(** * Natural-language query processor of the SurgiScan EHR back end

    A shallow embedding of [src/server/services/nlp_query_processor.py]
    (class [HealthcareNLQueryProcessor] and the entry point [main]) and the
    properties of its response envelopes; module [BackendTest] embeds the
    scripted tests of [src/backend_test.py].

    Conventions of the embedding:
    - a JSON value (what [json.loads] returns and [json.dumps] prints) is a
      [json]: an [int] is a [Z], a [float] a binary64 [float], a [dict] with
      string keys a [gmap string json];
    - Python text is a [string] holding its UTF-8 encoding; [len] and slices
      of a text count characters (code points), [char_length] and
      [take_chars] below;
    - a statement that can raise is a computation in the monad [M]: it
      returns a value, raises an [exn] (an instance of Python's [Exception])
      or leaves through [sys.exit]; signals that are not instances of
      [Exception] (an interrupt, the cancellation of the task) are not
      modelled;
    - everything the code obtains from outside the program (the environment
      variable, the chat client, the standard JSON decoder, the clock) is a
      field of a [World]. *)

From stdpp Require Import gmap strings list fin_maps.
From Stdlib Require Import Floats Ascii DecimalString.

#[local] Set Warnings "-register-all,-inexact-float".
#[local] Open Scope string_scope.
#[local] Open Scope Z_scope.

(** ** JSON values *)

Inductive json : Type :=
| JNull
| JBool (b : bool)
| JInt (n : Z)
| JFloat (x : float)
| JStr (s : string)
| JArr (xs : list json)
| JObj (d : gmap string json).

(** [type(v).__name__] *)
Definition type_name (v : json) : string :=
  match v with
  | JNull => "NoneType"
  | JBool _ => "bool"
  | JInt _ => "int"
  | JFloat _ => "float"
  | JStr _ => "str"
  | JArr _ => "list"
  | JObj _ => "dict"
  end.

(** Reading a field of a response: [None] when the value is not a [dict] or
    has no such key. *)
Definition field (v : json) (key : string) : option json :=
  match v with
  | JObj d => d !! key
  | _ => None
  end.

(** [v == s] for a string literal [s]. *)
Definition eq_str (v : json) (s : string) : bool :=
  match v with
  | JStr t => bool_decide (t = s)
  | _ => false
  end.

(** ** Exceptions and outcomes *)

(** The instances of [Exception] that occur, each with its message. *)
Inductive exn : Type :=
| KeyError (msg : string)
| IndexError (msg : string)
| TypeError (msg : string)
| AttributeError (msg : string)
| UnboundLocalError (msg : string)
| JSONDecodeError (msg : string)
| RecursionError (msg : string)
| ValueError (msg : string)
| UpstreamError (msg : string).

(** [str(e)] *)
Definition exn_str (e : exn) : string :=
  match e with
  | KeyError msg | IndexError msg | TypeError msg | AttributeError msg
  | UnboundLocalError msg | JSONDecodeError msg | RecursionError msg
  | ValueError msg | UpstreamError msg => msg
  end.

(** [isinstance(e, json.JSONDecodeError)] *)
Definition is_JSONDecodeError (e : exn) : bool :=
  match e with
  | JSONDecodeError _ => true
  | _ => false
  end.

(** How a statement ends: with a value, with a raised [Exception], or with
    [SystemExit] (raised by [sys.exit], not an [Exception]). *)
Inductive outcome (A : Type) : Type :=
| Ok (a : A)
| Raise (e : exn)
| Exit (code : Z).
Arguments Ok {A} a.
Arguments Raise {A} e.
Arguments Exit {A} code.

(** ** Computations over a store *)

Definition M (S A : Type) : Type := S -> outcome A * S.

Definition ret {S A} (a : A) : M S A := fun s => (Ok a, s).

Definition bind {S A B} (m : M S A) (k : A -> M S B) : M S B :=
  fun s =>
    match m s with
    | (Ok a, s') => k a s'
    | (Raise e, s') => (Raise e, s')
    | (Exit c, s') => (Exit c, s')
    end.

Definition lift {S A} (o : outcome A) : M S A := fun s => (o, s).

(** [try: body / except C as e: handler e], where [catches] tells the
    instances of [C]. [SystemExit] is never caught: the two handlers of the
    program name [Exception] and [json.JSONDecodeError]. *)
Definition try_except {S A} (body : M S A) (catches : exn -> bool)
    (handler : exn -> M S A) : M S A :=
  fun s =>
    match body s with
    | (Raise e, s') => if catches e then handler e s' else (Raise e, s')
    | r => r
    end.

Definition any_Exception (e : exn) : bool := true.

Notation "x <- m ;; k" := (bind m (fun x => k))
  (at level 100, m at next level, right associativity).
Notation "m ;;; k" := (bind m (fun _ => k))
  (at level 100, right associativity).

(** ** Characters of a text *)

(** A byte [10xxxxxx], which continues a character of a UTF-8 text. *)
Definition continuation (c : ascii) : bool :=
  match c with
  | Ascii _ _ _ _ _ _ b6 b7 => b7 && negb b6
  end.

(** [len(s)] for a text [s]: its characters, one for each byte that starts
    one. *)
Fixpoint char_length (s : string) : nat :=
  match s with
  | EmptyString => 0%nat
  | String c rest =>
      if continuation c then char_length rest else S (char_length rest)
  end.

(** [s[:n]] for a text [s]: its first [n] characters, each with the bytes
    that continue it; all of [s] when it has no more than [n]. *)
Fixpoint take_chars (n : nat) (s : string) : string :=
  match s with
  | EmptyString => EmptyString
  | String c rest =>
      if continuation c then String c (take_chars n rest)
      else
        match n with
        | O => EmptyString
        | S n' => String c (take_chars n' rest)
        end
  end.

(** ** The operations of Python the program applies to JSON values *)

(** [o.get(key, dflt)] *)
Definition py_get (o : json) (key : string) (dflt : json) : outcome json :=
  match o with
  | JObj d => Ok (default dflt (d !! key))
  | _ => Raise (AttributeError
           ("'" ++ type_name o ++ "' object has no attribute 'get'"))
  end.

(** [o[key]] for a string [key] *)
Definition py_getitem (o : json) (key : string) : outcome json :=
  match o with
  | JObj d =>
      match d !! key with
      | Some v => Ok v
      | None => Raise (KeyError ("'" ++ key ++ "'"))
      end
  | JArr _ => Raise (TypeError "list indices must be integers or slices, not str")
  | JStr _ => Raise (TypeError "string indices must be integers, not 'str'")
  | _ => Raise (TypeError ("'" ++ type_name o ++ "' object is not subscriptable"))
  end.

(** [o[key] = v] for a string [key]; the result is [o] after the
    assignment. *)
Definition py_setitem (o : json) (key : string) (v : json) : outcome json :=
  match o with
  | JObj d => Ok (JObj (<[key := v]> d))
  | JArr _ => Raise (TypeError "list indices must be integers or slices, not str")
  | _ => Raise (TypeError
           ("'" ++ type_name o ++ "' object does not support item assignment"))
  end.

(** [len(o)] *)
Definition py_len (o : json) : outcome Z :=
  match o with
  | JArr xs => Ok (Z.of_nat (length xs))
  | JObj d => Ok (Z.of_nat (size d))
  | JStr s => Ok (Z.of_nat (char_length s))
  | _ => Raise (TypeError ("object of type '" ++ type_name o ++ "' has no len()"))
  end.

(** Statements on the object a method mutates in place: the store of the
    computation is that object. *)
Definition self_get (key : string) (dflt : json) : M json json :=
  fun o => (py_get o key dflt, o).

Definition self_getitem (key : string) : M json json :=
  fun o => (py_getitem o key, o).

Definition self_setitem (key : string) (v : json) : M json unit :=
  fun o =>
    match py_setitem o key v with
    | Ok o' => (Ok tt, o')
    | Raise e => (Raise e, o)
    | Exit c => (Exit c, o)
    end.

(** The object itself, for [return ai_result]. *)
Definition self_ref : M json json := fun o => (Ok o, o).

(** ** The canned aggregates (lines 184-267) *)

Definition get_mock_patient_search_results : json :=
  JArr [
    JObj {[ "ageRange" := JStr "25-35"; "count" := JInt 15; "percentage" := JFloat 30.0 ]};
    JObj {[ "ageRange" := JStr "36-45"; "count" := JInt 20; "percentage" := JFloat 40.0 ]};
    JObj {[ "ageRange" := JStr "46-55"; "count" := JInt 10; "percentage" := JFloat 20.0 ]};
    JObj {[ "ageRange" := JStr "56-65"; "count" := JInt 5; "percentage" := JFloat 10.0 ]}
  ].

Definition get_mock_medical_analysis_results : json :=
  JArr [
    JObj {[ "condition" := JStr "High Blood Pressure"; "count" := JInt 25; "percentage" := JFloat 15.5 ]};
    JObj {[ "condition" := JStr "Diabetes"; "count" := JInt 18; "percentage" := JFloat 11.2 ]};
    JObj {[ "condition" := JStr "Heart Disease"; "count" := JInt 12; "percentage" := JFloat 7.5 ]};
    JObj {[ "condition" := JStr "Respiratory Issues"; "count" := JInt 8; "percentage" := JFloat 5.0 ]}
  ].

Definition get_mock_compliance_results : json :=
  JArr [
    JObj {[ "status" := JStr "Completed"; "count" := JInt 145; "percentage" := JFloat 85.3 ]};
    JObj {[ "status" := JStr "In Progress"; "count" := JInt 18; "percentage" := JFloat 10.6 ]};
    JObj {[ "status" := JStr "Incomplete"; "count" := JInt 7; "percentage" := JFloat 4.1 ]}
  ].

Definition get_mock_risk_assessment_results : json :=
  JArr [
    JObj {[ "riskLevel" := JStr "High"; "count" := JInt 8;
            "conditions" := JArr [JStr "Multiple medical alerts"; JStr "Working at heights"] ]};
    JObj {[ "riskLevel" := JStr "Medium"; "count" := JInt 22;
            "conditions" := JArr [JStr "Single medical condition"] ]};
    JObj {[ "riskLevel" := JStr "Low"; "count" := JInt 120;
            "conditions" := JArr [JStr "No significant risks"] ]}
  ].

Definition get_mock_operational_results : json :=
  JArr [
    JObj {[ "examinationType" := JStr "Pre-Employment"; "avgTime" := JStr "45 minutes"; "count" := JInt 85 ]};
    JObj {[ "examinationType" := JStr "Periodic"; "avgTime" := JStr "35 minutes"; "count" := JInt 62 ]};
    JObj {[ "examinationType" := JStr "Exit"; "avgTime" := JStr "25 minutes"; "count" := JInt 23 ]}
  ].

(** One point [{"label": l, "value": v}] of a chart. *)
Definition point (label : string) (value : Z) : json :=
  JObj {[ "label" := JStr label; "value" := JInt value ]}.

Definition chart (type title : string) (data : list json) : json :=
  JObj {[ "type" := JStr type; "title" := JStr title; "data" := JArr data ]}.

Definition get_mock_medical_charts : json :=
  JArr [
    chart "pie" "Medical Conditions Distribution" [
      point "High Blood Pressure" 25;
      point "Diabetes" 18;
      point "Heart Disease" 12;
      point "Other" 30
    ]
  ].

Definition get_mock_compliance_charts : json :=
  JArr [
    chart "bar" "Questionnaire Completion Status" [
      point "Completed" 145;
      point "In Progress" 18;
      point "Incomplete" 7
    ]
  ].

Definition get_mock_operational_charts : json :=
  JArr [
    chart "line" "Average Examination Time by Type" [
      point "Pre-Employment" 45;
      point "Periodic" 35;
      point "Exit" 25
    ]
  ].

(** ** [execute_query] (lines 147-182) *)

(** [ai_result['results'] = table; ai_result['resultCount'] = len(ai_result['results'])] *)
Definition set_results (table : json) : M json unit :=
  self_setitem "results" table ;;;
  results <- self_getitem "results" ;;
  n <- lift (py_len results) ;;
  self_setitem "resultCount" (JInt n).

(** The body of the [try] block; the store is the object [ai_result]. *)
Definition execute_query_body : M json json :=
  mongo_query <- self_get "mongoQuery" (JObj ∅) ;;
  query_type <- self_get "queryType" (JStr "UNKNOWN") ;;
  (if eq_str query_type "PATIENT_SEARCH" then
     set_results get_mock_patient_search_results
   else if eq_str query_type "MEDICAL_ANALYSIS" then
     set_results get_mock_medical_analysis_results ;;;
     self_setitem "charts" get_mock_medical_charts
   else if eq_str query_type "COMPLIANCE_REPORTING" then
     set_results get_mock_compliance_results ;;;
     self_setitem "charts" get_mock_compliance_charts
   else if eq_str query_type "RISK_ASSESSMENT" then
     set_results get_mock_risk_assessment_results
   else if eq_str query_type "OPERATIONAL_INSIGHTS" then
     set_results get_mock_operational_results ;;;
     self_setitem "charts" get_mock_operational_charts
   else ret tt) ;;;
  self_ref.

(** [except Exception as e:] of [execute_query] *)
Definition execute_query_handler (e : exn) : M json json :=
  self_setitem "error" (JStr ("Query execution failed: " ++ exn_str e)) ;;;
  self_setitem "success" (JBool false) ;;;
  self_ref.

(** [execute_query(ai_result, query_data)]: the value returned is the
    object [ai_result] itself, mutated in place. *)
Definition execute_query (ai_result query_data : json) : outcome json :=
  fst (try_except execute_query_body any_Exception execute_query_handler ai_result).

(** ** The outside world *)

(** What one call of the chat client is given: the arguments of [LlmChat],
    [with_model], [with_max_tokens] and the text of the [UserMessage]
    (lines 98-118). *)
Record ChatRequest : Type := {
  chat_api_key : string;
  chat_session_id : string;
  chat_system_message : string;
  chat_provider : string;
  chat_model : string;
  chat_max_tokens : Z;
  chat_text : string
}.

Record World : Type := {
  (** [os.getenv('OPENAI_API_KEY')] *)
  getenv_OPENAI_API_KEY : option string;
  (** [await chat.send_message(user_message)]: the reply ([inl]), or the
      message of the [Exception] the client raises ([inr]) *)
  send_message : ChatRequest -> string + string;
  (** [json.loads(text)]: the value ([inl]), or the exception the decoder
      raises ([inr]): [JSONDecodeError] for a text that is not JSON,
      [RecursionError] for a text nested deeper than the interpreter's
      recursion limit, [ValueError] for an integer beyond its digit limit *)
  json_loads : string -> json + exn;
  (** [datetime.now().strftime('%Y-%m-%d')] *)
  today : string;
  (** the measured duration in milliseconds, as [':.0f'] prints it *)
  elapsed_ms : string;
  (** [str(v)] for a value that is not a string *)
  str_of_value : json -> string
}.

(** What the program does to the outside: the chat requests it has sent and
    the JSON objects it has printed, oldest first. *)
Record Effects : Type := {
  calls : list ChatRequest;
  stdout : list json
}.

Definition no_effects : Effects := {| calls := []; stdout := [] |}.

(** [await chat.send_message(...)] *)
Definition send (w : World) (req : ChatRequest) : M Effects string :=
  fun st =>
    (match send_message w req with
     | inl reply => Ok reply
     | inr msg => Raise (UpstreamError msg)
     end,
     {| calls := calls st ++ [req]; stdout := stdout st |}).

(** [print(json.dumps(v))] *)
Definition print (v : json) : M Effects unit :=
  fun st => (Ok tt, {| calls := calls st; stdout := stdout st ++ [v] |}).

(** [sys.exit(code)] *)
Definition sys_exit {A} (code : Z) : M Effects A := lift (Exit code).

(** [json.loads(text)] *)
Definition loads (w : World) (text : string) : outcome json :=
  match json_loads w text with
  | inl v => Ok v
  | inr e => Raise e
  end.

(** A value inside an f-string: a string stands for itself. *)
Definition fmt (w : World) (v : json) : string :=
  match v with
  | JStr s => s
  | _ => str_of_value w v
  end.

Definition nl : string := String "010"%char EmptyString.
Definition dquote : string := String "034"%char EmptyString.

(** ** The processor (lines 21-304) *)

(** The lines of a text, each followed by a line feed. *)
Definition unlines (lines : list string) : string :=
  foldr (fun line rest => line ++ nl ++ rest) EmptyString lines.

(** The instruction text [__init__] stores in [self.system_message]
    (lines 27-85). *)
Definition system_message_lines : list string :=
  [ "You are a healthcare data query assistant that converts natural language questions about patient data into MongoDB queries and provides analysis.";
    EmptyString;
    "IMPORTANT SAFETY GUIDELINES:";
    "- Only generate queries for authorized medical data access";
    "- Ensure all queries comply with HIPAA/POPIA regulations";
    "- Never expose patient identifiable information without proper authorization";
    "- Validate that queries are safe and don't allow data breaches";
    EmptyString;
    "DATABASE SCHEMA - SurgiScan EHR System:";
    "Collections:";
    "1. patients: {firstName, surname, idNumber, age, gender, employerName, createdAt}";
    "2. questionnaires: {patient, examination_type, completed, completedAt, medical_history, physical_examination, working_at_heights_assessment, declarations_and_signatures, validation_status}";
    "3. examinations: {patient, examinationType, status, currentStation, createdAt, completedAt}";
    "4. users: {firstName, lastName, email, role, department}";
    EmptyString;
    "EXAMINATION TYPES: pre_employment, periodic, exit, return_to_work, working_at_heights";
    EmptyString;
    "MEDICAL CONDITIONS in questionnaires.medical_history.current_conditions:";
    "- heart_disease_high_bp (heart disease/high blood pressure)";
    "- epilepsy_convulsions";
    "- glaucoma_blindness  ";
    "- diabetes_endocrine";
    "- family_mellitus_diabetes";
    "- tuberculosis_pneumonia";
    "- respiratory_conditions";
    EmptyString;
    "QUERY TYPES you can handle:";
    "1. PATIENT_SEARCH - Find patients matching criteria";
    "2. MEDICAL_ANALYSIS - Analyze medical conditions/trends";
    "3. COMPLIANCE_REPORTING - Track completion status";
    "4. RISK_ASSESSMENT - Identify high-risk patients";
    "5. OPERATIONAL_INSIGHTS - Performance metrics";
    EmptyString;
    "RESPONSE FORMAT (JSON):";
    "{";
    "  " ++ dquote ++ "success" ++ dquote ++ ": true,";
    "  " ++ dquote ++ "interpretation" ++ dquote ++ ": " ++ dquote ++ "Clear explanation of what the query asks" ++ dquote ++ ",";
    "  " ++ dquote ++ "queryType" ++ dquote ++ ": " ++ dquote ++ "PATIENT_SEARCH|MEDICAL_ANALYSIS|COMPLIANCE_REPORTING|RISK_ASSESSMENT|OPERATIONAL_INSIGHTS" ++ dquote ++ ",";
    "  " ++ dquote ++ "mongoQuery" ++ dquote ++ ": {" ++ dquote ++ "collection" ++ dquote ++ ": " ++ dquote ++ "patients" ++ dquote ++ ", " ++ dquote ++ "query" ++ dquote ++ ": {...}, " ++ dquote ++ "projection" ++ dquote ++ ": {...}},";
    "  " ++ dquote ++ "sqlQuery" ++ dquote ++ ": " ++ dquote ++ "SELECT ... (equivalent SQL for reference)" ++ dquote ++ ",";
    "  " ++ dquote ++ "results" ++ dquote ++ ": [...],";
    "  " ++ dquote ++ "resultCount" ++ dquote ++ ": 0,";
    "  " ++ dquote ++ "executionTime" ++ dquote ++ ": " ++ dquote ++ "0ms" ++ dquote ++ ",";
    "  " ++ dquote ++ "summary" ++ dquote ++ ": " ++ dquote ++ "Brief summary of findings" ++ dquote ++ ",";
    "  " ++ dquote ++ "charts" ++ dquote ++ ": [{" ++ dquote ++ "type" ++ dquote ++ ": " ++ dquote ++ "bar|pie|line" ++ dquote ++ ", " ++ dquote ++ "data" ++ dquote ++ ": [...], " ++ dquote ++ "title" ++ dquote ++ ": " ++ dquote ++ "Chart Title" ++ dquote ++ "}],";
    "  " ++ dquote ++ "suggestions" ++ dquote ++ ": [" ++ dquote ++ "Follow-up question 1" ++ dquote ++ ", " ++ dquote ++ "Follow-up question 2" ++ dquote ++ "]";
    "}";
    EmptyString;
    "SAFETY RULES:";
    "- Never return actual patient data - only aggregated/anonymized results";
    "- For patient lists, return counts and basic demographics only";
    "- Always include appropriate date filters for performance";
    "- Reject queries that could expose sensitive information inappropriately";
    EmptyString;
    "Example Query Patterns:";
    "- " ++ dquote ++ "Find patients with diabetes" ++ dquote ++ " → Count and basic demographics";
    "- " ++ dquote ++ "How many pre-employment exams last month?" ++ dquote ++ " → Aggregate count with breakdown";
    "- " ++ dquote ++ "Show incomplete questionnaires" ++ dquote ++ " → Status counts, not individual records" ].

Record HealthcareNLQueryProcessor : Type := {
  openai_api_key : option string;
  model : string;
  system_message : string
}.

(** [__init__] *)
Definition init (w : World) : HealthcareNLQueryProcessor :=
  {| openai_api_key := getenv_OPENAI_API_KEY w;
     model := "gpt-4o";
     system_message := unlines system_message_lines |}.

(** [create_mock_response(query, error_msg)] *)
Definition create_mock_response (w : World) (query : json) (error_msg : string) : json :=
  JObj {[
    "success" := JBool false;
    "error" := JStr error_msg;
    "interpretation" := JStr ("Unable to process query: " ++ fmt w query);
    "queryType" := JStr "UNKNOWN";
    "mongoQuery" := JObj ∅;
    "sqlQuery" := JStr EmptyString;
    "results" := JArr [];
    "resultCount" := JInt 0;
    "executionTime" := JStr "0ms";
    "summary" := JStr "AI service not configured. Please set OPENAI_API_KEY environment variable.";
    "charts" := JArr [];
    "suggestions" := JArr [
      JStr "Set up OpenAI API key to enable natural language queries";
      JStr "Try using the manual query interface";
      JStr "Contact administrator for assistance"
    ]
  ]}.

(** [response[:200] + "..." if len(response) > 200 else response] *)
Definition summary_of (response : string) : string :=
  if (200 <? char_length response)%nat
  then take_chars 200 response ++ "..."
  else response.

(** [parse_natural_response(response, query, execution_time)] *)
Definition parse_natural_response (w : World) (response : string) (query : json)
    (execution_time : string) : json :=
  JObj {[
    "success" := JBool true;
    "interpretation" := JStr ("AI interpretation of: " ++ fmt w query);
    "queryType" := JStr "GENERAL";
    "mongoQuery" := JObj ∅;
    "sqlQuery" := JStr EmptyString;
    "results" := JArr [JObj {[ "response" := JStr response ]}];
    "resultCount" := JInt 1;
    "executionTime" := JStr (execution_time ++ "ms");
    "summary" := JStr (summary_of response);
    "charts" := JArr [];
    "suggestions" := JArr [JStr "Try a more specific query"; JStr "Ask about patient statistics"]
  ]}.

(** The text of the [UserMessage] (lines 106-117). *)
Definition user_message_text (w : World) (query user_role : json) : string :=
  nl ++ "Natural Language Query: " ++ dquote ++ fmt w query ++ dquote ++ nl ++
  "User Role: " ++ fmt w user_role ++ nl ++
  "Current Date: " ++ today w ++ nl ++
  nl ++
  "Please convert this to appropriate MongoDB queries and provide analysis. " ++ nl ++
  "Remember to:" ++ nl ++
  "1. Respect user role permissions" ++ nl ++
  "2. Return aggregated data, not individual patient records" ++ nl ++
  "3. Include appropriate date filters" ++ nl ++
  "4. Provide meaningful insights and follow-up suggestions" ++ nl.

(** The chat request of lines 98-118. *)
Definition chat_request (w : World) (self : HealthcareNLQueryProcessor)
    (key : string) (query_data query user_role : json) : outcome ChatRequest :=
  match py_get query_data "requestId" (JStr "default") with
  | Ok request_id =>
      Ok {| chat_api_key := key;
            chat_session_id := "nlq_" ++ fmt w request_id;
            chat_system_message := system_message self;
            chat_provider := "openai";
            chat_model := model self;
            chat_max_tokens := 4096;
            chat_text := user_message_text w query user_role |}
  | Raise e => Raise e
  | Exit c => Exit c
  end.

(** Lines 126-137: decode the reply and run the query, or wrap the reply
    when it is not JSON. *)
Definition parse_ai_response (w : World) (response : string)
    (query_data query : json) : M Effects json :=
  try_except
    (result <- lift (loads w response) ;;
     result <- lift (py_setitem result "executionTime" (JStr (elapsed_ms w ++ "ms"))) ;;
     result <- lift (execute_query result query_data) ;;
     ret result)
    is_JSONDecodeError
    (fun _ => ret (parse_natural_response w response query (elapsed_ms w))).

(** Lines 90-137, the body of the [try] block of [process_query]. *)
Definition process_query_body (w : World) (self : HealthcareNLQueryProcessor)
    (query_data : json) : M Effects json :=
  query <- lift (py_getitem query_data "query") ;;
  user_role <- lift (py_get query_data "userRole" (JStr "staff")) ;;
  match openai_api_key self with
  | None | Some EmptyString =>
      ret (create_mock_response w query "OpenAI API key not configured")
  | Some key =>
      chat <- lift (chat_request w self key query_data query user_role) ;;
      response <- send w chat ;;
      parse_ai_response w response query_data query
  end.

Definition query_unbound_message : string :=
  "cannot access local variable 'query' where it is not associated with a value".

(** The local variable [query] as the handler of line 139 reads it: it is
    bound when line 90 has run to its end, and reading it raises otherwise.
    ([query_data] is never assigned to, so line 90 can be asked again.) *)
Definition local_query (query_data : json) : outcome json :=
  match py_getitem query_data "query" with
  | Ok query => Ok query
  | _ => Raise (UnboundLocalError query_unbound_message)
  end.

(** The envelope of lines 140-145. *)
Definition failure_envelope (w : World) (e : exn) (query : json) : json :=
  JObj {[
    "success" := JBool false;
    "error" := JStr (exn_str e);
    "interpretation" := JStr ("Failed to process query: " ++ fmt w query);
    "suggestions" := JArr [JStr "Try rephrasing your question"; JStr "Use simpler medical terms"]
  ]}.

(** Lines 139-145, [except Exception as e:]. *)
Definition process_query_handler (w : World) (query_data : json) (e : exn) : M Effects json :=
  query <- lift (local_query query_data) ;;
  ret (failure_envelope w e query).

(** [process_query(query_data)] *)
Definition process_query (w : World) (self : HealthcareNLQueryProcessor)
    (query_data : json) : M Effects json :=
  try_except (process_query_body w self query_data) any_Exception
    (process_query_handler w query_data).

(** ** The entry point (lines 306-330) *)

(** The envelope [main] prints for an [Exception]. *)
Definition error_result (e : exn) : json :=
  JObj {[
    "success" := JBool false;
    "error" := JStr (exn_str e);
    "interpretation" := JStr "Failed to process query";
    "suggestions" := JArr [JStr "Check query format"; JStr "Try again later"]
  ]}.

(** [sys.argv[1]] *)
Definition argv_1 (argv : list string) : outcome string :=
  match argv !! 1%nat with
  | Some arg => Ok arg
  | None => Raise (IndexError "list index out of range")
  end.

(** Lines 309-321, the body of the [try] block of [main]. *)
Definition main_body (w : World) (argv : list string) : M Effects unit :=
  (if (length argv <? 2)%nat then
     print (JObj {[ "error" := JStr "No query data provided" ]}) ;;;
     sys_exit 1
   else ret tt) ;;;
  arg <- lift (argv_1 argv) ;;
  query_data <- lift (loads w arg) ;;
  let processor := init w in
  result <- process_query w processor query_data ;;
  print result.

(** [main()], with [sys.argv] as [argv]. *)
Definition main (w : World) (argv : list string) : M Effects unit :=
  try_except (main_body w argv) any_Exception (fun e => print (error_result e)).

(** ** One invocation, and what is observed of it *)

(** The response [process_query] returns for a request, from a processor
    built by [__init__], and the chat requests sent on the way. *)
Definition response (w : World) (query_data : json) : outcome json :=
  fst (process_query w (init w) query_data no_effects).

Definition upstream_calls (w : World) (query_data : json) : list ChatRequest :=
  calls (snd (process_query w (init w) query_data no_effects)).

(** [not self.openai_api_key]: the variable is unset, or set to the empty
    text. *)
Definition credential_missing (w : World) : Prop :=
  getenv_OPENAI_API_KEY w = None \/ getenv_OPENAI_API_KEY w = Some EmptyString.

(** The reply to the one request sent was the text [t]. *)
Definition replied (w : World) (query_data : json) (t : string) : Prop :=
  exists req, upstream_calls w query_data = [req] /\ send_message w req = inl t.

(** The decoder rejected the reply as not JSON: it raised
    [json.JSONDecodeError], the class line 135 names. *)
Definition degraded_parse (w : World) (query_data : json) (t : string) : Prop :=
  replied w query_data t /\
  exists msg, json_loads w t = inr (JSONDecodeError msg).

(** The reply decoded to the object [d]. *)
Definition decoded_as (w : World) (query_data : json) (d : gmap string json) : Prop :=
  exists t, replied w query_data t /\ json_loads w t = inl (JObj d).

(** The five query types [execute_query] has a branch for. *)
Definition routed_types : list string :=
  ["PATIENT_SEARCH"; "MEDICAL_ANALYSIS"; "COMPLIANCE_REPORTING";
   "RISK_ASSESSMENT"; "OPERATIONAL_INSIGHTS"].

(** [ai_result.get('queryType', 'UNKNOWN')] of a decoded object. *)
Definition query_type_of (d : gmap string json) : json :=
  default (JStr "UNKNOWN") (d !! "queryType").

Definition routed (d : gmap string json) : bool :=
  existsb (eq_str (query_type_of d)) routed_types.

(** [resultCount == len(results)] *)
Definition count_matches_results (r : json) : bool :=
  match field r "results", field r "resultCount" with
  | Some (JArr xs), Some (JInt n) => bool_decide (n = Z.of_nat (length xs))
  | _, _ => false
  end.

(** [error is not None], an absent key read as [None]. *)
Definition error_is_set (r : json) : bool :=
  match field r "error" with
  | None | Some JNull => false
  | Some _ => true
  end.

(** [success == False] *)
Definition success_is_false (r : json) : bool :=
  match field r "success" with
  | Some (JBool false) => true
  | _ => false
  end.

(** The keys [execute_query] assigns to on a decoded object. *)
Definition assigned_keys : list string := ["results"; "resultCount"; "charts"].

(** The five tables of canned aggregates. *)
Definition mock_tables : list json :=
  [get_mock_patient_search_results; get_mock_medical_analysis_results;
   get_mock_compliance_results; get_mock_risk_assessment_results;
   get_mock_operational_results].

(** The field names of the canned aggregates, and the fields of the schema
    (lines 37 and 40) that identify a person. *)
Definition aggregate_fields : list string :=
  ["ageRange"; "condition"; "status"; "riskLevel"; "examinationType";
   "count"; "percentage"; "conditions"; "avgTime"].

Definition identifying_fields : list string :=
  ["firstName"; "surname"; "idNumber"; "lastName"; "email"].

(** Every key of a record is one of [allowed]. *)
Definition keys_within (allowed : list string) (v : json) : bool :=
  match v with
  | JObj d => forallb (fun kv => bool_decide (kv.1 ∈ allowed)) (map_to_list d)
  | _ => false
  end.

(** [needle in hay] for two texts. *)
Fixpoint occurs (needle hay : string) : bool :=
  String.prefix needle hay ||
  match hay with
  | EmptyString => false
  | String _ rest => occurs needle rest
  end.

(** A record of aggregates: its keys are among [aggregate_fields] and none
    of [identifying_fields] is set. *)
Definition aggregate_only (rec : json) : bool :=
  keys_within aggregate_fields rec &&
  forallb (fun k => match field rec k with None => true | Some _ => false end)
    identifying_fields.

Definition aggregate_table (table : json) : bool :=
  match table with
  | JArr rows => forallb aggregate_only rows
  | _ => false
  end.

(** An integer field of a record, and the sum of it over a sequence. *)
Definition int_field (key : string) (v : json) : option Z :=
  match field v key with
  | Some (JInt n) => Some n
  | _ => None
  end.

Fixpoint total (key : string) (rows : list json) : option Z :=
  match rows with
  | [] => Some 0
  | row :: rest =>
      match int_field key row, total key rest with
      | Some n, Some m => Some (n + m)
      | _, _ => None
      end
  end.

(** ** Scripted worlds and requests for the examples *)

Definition quoted (s : string) : string := dquote ++ s ++ dquote.

(** A decoder given by the texts it is asked about, each with the value
    [json.loads] returns for it; a text that is not listed is prose, which
    [json.loads] rejects at its first character. *)
Fixpoint decode_with (table : list (string * json)) (t : string) : json + exn :=
  match table with
  | [] => inr (JSONDecodeError "Expecting value: line 1 column 1 (char 0)")
  | (t', v) :: rest => if bool_decide (t' = t) then inl v else decode_with rest t
  end.

(** A world with the given credential, whose chat client answers every
    request the same way. *)
Definition scripted (key : option string) (reply : string + string)
    (table : list (string * json)) : World :=
  {| getenv_OPENAI_API_KEY := key;
     send_message := fun _ => reply;
     json_loads := decode_with table;
     today := "2025-03-14";
     elapsed_ms := "850";
     str_of_value := fun v => "<" ++ type_name v ++ ">" |}.

(** [{"query": "list patient names"}]: no role is given. *)
Definition names_fields : gmap string json :=
  {[ "query" := JStr "list patient names" ]}.

Definition names_request : json := JObj names_fields.

(** [{"query": "How many questionnaires are incomplete?", "userRole": "doctor", "requestId": "r-17"}] *)
Definition compliance_request : json :=
  JObj {[ "query" := JStr "How many questionnaires are incomplete?";
          "userRole" := JStr "doctor";
          "requestId" := JStr "r-17" ]}.

Definition compliance_request_text : string :=
  "{" ++ quoted "query" ++ ": " ++ quoted "How many questionnaires are incomplete?" ++ ", " ++
  quoted "userRole" ++ ": " ++ quoted "doctor" ++ ", " ++
  quoted "requestId" ++ ": " ++ quoted "r-17" ++ "}".

(** A reply in prose that names a person. *)
Definition prose_reply : string :=
  "Patient Thabo Mokoena (ID 8001015009087, tel 082 555 0199) has an incomplete questionnaire.".

(** [{"queryType": "GENERAL", "results": [{"count": 42}], "resultCount": 0, "charts": [{"type": "pie"}]}] *)
Definition general_reply : string :=
  "{" ++ quoted "queryType" ++ ": " ++ quoted "GENERAL" ++ ", " ++
  quoted "results" ++ ": [{" ++ quoted "count" ++ ": 42}], " ++
  quoted "resultCount" ++ ": 0, " ++
  quoted "charts" ++ ": [{" ++ quoted "type" ++ ": " ++ quoted "pie" ++ "}]}".

Definition general_decoded : gmap string json :=
  {[ "queryType" := JStr "GENERAL";
     "results" := JArr [JObj {[ "count" := JInt 42 ]}];
     "resultCount" := JInt 0;
     "charts" := JArr [JObj {[ "type" := JStr "pie" ]}] ]}.

(** [{"success": false, "queryType": "GENERAL", "summary": "Request rejected"}] *)
Definition rejected_reply : string :=
  "{" ++ quoted "success" ++ ": false, " ++
  quoted "queryType" ++ ": " ++ quoted "GENERAL" ++ ", " ++
  quoted "summary" ++ ": " ++ quoted "Request rejected" ++ "}".

Definition rejected_decoded : gmap string json :=
  {[ "success" := JBool false;
     "queryType" := JStr "GENERAL";
     "summary" := JStr "Request rejected" ]}.

(** [{"success": true, "queryType": "COMPLIANCE_REPORTING", "results": [], "resultCount": 0}] *)
Definition compliance_reply : string :=
  "{" ++ quoted "success" ++ ": true, " ++
  quoted "queryType" ++ ": " ++ quoted "COMPLIANCE_REPORTING" ++ ", " ++
  quoted "results" ++ ": [], " ++
  quoted "resultCount" ++ ": 0}".

Definition compliance_decoded : gmap string json :=
  {[ "success" := JBool true;
     "queryType" := JStr "COMPLIANCE_REPORTING";
     "results" := JArr [];
     "resultCount" := JInt 0 ]}.

Definition unconfigured_world : World :=
  scripted None (inr "no request is answered") [].

Definition prose_world : World :=
  scripted (Some "sk-test") (inl prose_reply) [].

Definition general_world : World :=
  scripted (Some "sk-test") (inl general_reply) [(general_reply, JObj general_decoded)].

Definition rejected_world : World :=
  scripted (Some "sk-test") (inl rejected_reply) [(rejected_reply, JObj rejected_decoded)].

Definition compliance_world : World :=
  scripted (Some "sk-test") (inl compliance_reply)
    [(compliance_reply, JObj compliance_decoded);
     (compliance_request_text, compliance_request)].

(** The chat client raises. *)
Definition offline_world : World :=
  scripted (Some "sk-test") (inr "Connection error.")
    [(compliance_request_text, compliance_request)].

(** The request text [{}] decodes to an object without a query. *)
Definition empty_request_world : World :=
  scripted (Some "sk-test") (inl prose_reply) [("{}", JObj ∅)].

(** The reply [[]] is JSON, and not an object. *)
Definition list_reply_world : World :=
  scripted (Some "sk-test") (inl "[]") [("[]", JArr [])].

(** [{"queryType": "PATIENT_SEARCH", "charts": [{"type": "pie"}]}] *)
Definition search_reply : string :=
  "{" ++ quoted "queryType" ++ ": " ++ quoted "PATIENT_SEARCH" ++ ", " ++
  quoted "charts" ++ ": [{" ++ quoted "type" ++ ": " ++ quoted "pie" ++ "}]}".

Definition search_decoded : gmap string json :=
  {[ "queryType" := JStr "PATIENT_SEARCH";
     "charts" := JArr [JObj {[ "type" := JStr "pie" ]}] ]}.

Definition search_world : World :=
  scripted (Some "sk-test") (inl search_reply) [(search_reply, JObj search_decoded)].

(** [{"queryType": "RISK_ASSESSMENT"}] *)
Definition risk_reply : string :=
  "{" ++ quoted "queryType" ++ ": " ++ quoted "RISK_ASSESSMENT" ++ "}".

Definition risk_decoded : gmap string json :=
  {[ "queryType" := JStr "RISK_ASSESSMENT" ]}.

Definition risk_world : World :=
  scripted (Some "sk-test") (inl risk_reply) [(risk_reply, JObj risk_decoded)].







(** ** How an invocation ends: the paths through [process_query] *)

(** The request sent for the object [d] with query [q] under the key
    [key]. *)
Definition request_for (w : World) (key : string) (d : gmap string json) (q : json) : ChatRequest :=
  {| chat_api_key := key;
     chat_session_id := "nlq_" ++ fmt w (default (JStr "default") (d !! "requestId"));
     chat_system_message := unlines system_message_lines;
     chat_provider := "openai";
     chat_model := "gpt-4o";
     chat_max_tokens := 4096;
     chat_text := user_message_text w q (default (JStr "staff") (d !! "userRole")) |}.

(** [answer w query_data r sent]: the invocation ends with [r] after sending
    the requests [sent]. One constructor per path. *)
Inductive answer (w : World) (query_data : json) : outcome json -> list ChatRequest -> Prop :=
| query_unbound e :
    py_getitem query_data "query" = Raise e ->
    answer w query_data (Raise (UnboundLocalError query_unbound_message)) []
| config_error d q :
    query_data = JObj d -> d !! "query" = Some q ->
    credential_missing w ->
    answer w query_data
      (Ok (create_mock_response w q "OpenAI API key not configured")) []
| upstream_error d q key msg :
    query_data = JObj d -> d !! "query" = Some q ->
    getenv_OPENAI_API_KEY w = Some key -> key <> EmptyString ->
    send_message w (request_for w key d q) = inr msg ->
    answer w query_data
      (Ok (failure_envelope w (UpstreamError msg) q)) [request_for w key d q]
| parse_degraded d q key t msg :
    query_data = JObj d -> d !! "query" = Some q ->
    getenv_OPENAI_API_KEY w = Some key -> key <> EmptyString ->
    send_message w (request_for w key d q) = inl t ->
    json_loads w t = inr (JSONDecodeError msg) ->
    answer w query_data
      (Ok (parse_natural_response w t q (elapsed_ms w))) [request_for w key d q]
| decoded_object d q key t r r' :
    query_data = JObj d -> d !! "query" = Some q ->
    getenv_OPENAI_API_KEY w = Some key -> key <> EmptyString ->
    send_message w (request_for w key d q) = inl t ->
    json_loads w t = inl (JObj r) ->
    execute_query (JObj (<["executionTime" := JStr (elapsed_ms w ++ "ms")]> r)) query_data
      = Ok r' ->
    answer w query_data (Ok r') [request_for w key d q]
| decoded_other d q key t v e :
    query_data = JObj d -> d !! "query" = Some q ->
    getenv_OPENAI_API_KEY w = Some key -> key <> EmptyString ->
    send_message w (request_for w key d q) = inl t ->
    json_loads w t = inl v ->
    py_setitem v "executionTime" (JStr (elapsed_ms w ++ "ms")) = Raise e ->
    answer w query_data (Ok (failure_envelope w e q)) [request_for w key d q]
| decode_fault d q key t e :
    query_data = JObj d -> d !! "query" = Some q ->
    getenv_OPENAI_API_KEY w = Some key -> key <> EmptyString ->
    send_message w (request_for w key d q) = inl t ->
    json_loads w t = inr e -> is_JSONDecodeError e = false ->
    answer w query_data (Ok (failure_envelope w e q)) [request_for w key d q].

(** * The scripted tests of the back end

    A shallow embedding of [src/backend_test.py] (class [BackendTester] and
    its [main]). The server the tests talk to, the clock, the rendering of
    values as text and the file system are the fields of an [Env]. *)

Module BackendTest.

(** ** Faults and computations *)

(** An instance of [requests.exceptions.RequestException], which the tests
    catch by name, or any other instance of [Exception]; each with its
    message. *)
Inductive fault : Type :=
| RequestException (msg : string)
| OtherException (msg : string).

(** [str(e)] *)
Definition fault_str (f : fault) : string :=
  match f with
  | RequestException msg | OtherException msg => msg
  end.

Inductive result (A : Type) : Type :=
| Return (a : A)
| Throw (f : fault).
Arguments Return {A} a.
Arguments Throw {A} f.

Record HttpRequest : Type := {
  http_method : string;
  http_url : string;
  http_json : option json;
  http_timeout : Z
}.

(** A response of the server: [status_code], what [json()] gives (the
    decoded body, or the fault it raises, which is a [RequestException] or
    not with the version of the library) and [text]. *)
Record Response : Type := {
  status_code : Z;
  json_body : json + fault;
  text : string
}.

(** A reading of [datetime.now()]. *)
Record DateTime : Type := {
  year : Z;
  month : Z;
  day : Z;
  isoformat : string
}.

Record Env : Type := {
  (** the answer to the n-th request of the session: a response, or the
      message of the [RequestException] raised *)
  send : nat -> HttpRequest -> Response + string;
  (** the n-th reading of [datetime.now()] *)
  now : nat -> DateTime;
  (** [str(v)] for a value that is not a string *)
  str : json -> string;
  (** [repr(v)], as an f-string prints a dict or a list *)
  repr : json -> string;
  (** [f"{(passed/total)*100:.1f}"] for [total > 0] *)
  percent : nat -> nat -> string;
  (** [open(path, 'w')] and [json.dump(v, f, indent=2)]: the fault raised,
      if any *)
  dump : string -> json -> option fault
}.

(** The tester and the outside it acts on: the results logged, the lines
    printed, the requests sent and the number of clock readings, oldest
    first. *)
Record Run : Type := {
  test_results : list json;
  printed : list string;
  requests : list HttpRequest;
  clock_reads : nat
}.

(** [BackendTester()] in a process that has done nothing yet. *)
Definition init : Run :=
  {| test_results := []; printed := []; requests := []; clock_reads := 0 |}.

Definition T (A : Type) : Type := Run -> result A * Run.

Definition ret {A} (a : A) : T A := fun st => (Return a, st).

Definition bind {A B} (m : T A) (k : A -> T B) : T B :=
  fun st =>
    match m st with
    | (Return a, st') => k a st'
    | (Throw f, st') => (Throw f, st')
    end.

Definition lift {A} (r : result A) : T A := fun st => (r, st).

Notation "'do' x <- m ; k" := (bind m (fun x => k))
  (at level 10, x name, m at level 100, k at level 200).
Notation "'run' m ; k" := (bind m (fun _ => k))
  (at level 10, m at level 100, k at level 200).

(** [try: body / except requests.exceptions.RequestException as e: handler] *)
Definition try_request {A} (body : T A) (handler : string -> T A) : T A :=
  fun st =>
    match body st with
    | (Throw (RequestException msg), st') => handler msg st'
    | r => r
    end.

(** [try: body / except Exception as e: handler] *)
Definition try_exception {A} (body : T A) (handler : fault -> T A) : T A :=
  fun st =>
    match body st with
    | (Throw f, st') => handler f st'
    | r => r
    end.

(** [datetime.now()] *)
Definition datetime_now (env : Env) : T DateTime :=
  fun st =>
    (Return (now env (clock_reads st)),
     {| test_results := test_results st; printed := printed st;
        requests := requests st; clock_reads := S (clock_reads st) |}).

(** [print(line)] *)
Definition print (line : string) : T unit :=
  fun st =>
    (Return tt,
     {| test_results := test_results st; printed := printed st ++ [line];
        requests := requests st; clock_reads := clock_reads st |}).

(** [self.test_results.append(result)] *)
Definition append_result (entry : json) : T unit :=
  fun st =>
    (Return tt,
     {| test_results := test_results st ++ [entry]; printed := printed st;
        requests := requests st; clock_reads := clock_reads st |}).

(** [self.session.get(...)] and [self.session.post(...)] *)
Definition request (env : Env) (req : HttpRequest) : T Response :=
  fun st =>
    (match send env (length (requests st)) req with
     | inl response => Return response
     | inr msg => Throw (RequestException msg)
     end,
     {| test_results := test_results st; printed := printed st;
        requests := requests st ++ [req]; clock_reads := clock_reads st |}).

Definition session_get (env : Env) (url : string) (timeout : Z) : T Response :=
  request env {| http_method := "GET"; http_url := url;
                 http_json := None; http_timeout := timeout |}.

Definition session_post (env : Env) (url : string) (body : json) (timeout : Z) : T Response :=
  request env {| http_method := "POST"; http_url := url;
                 http_json := Some body; http_timeout := timeout |}.

(** [response.json()] *)
Definition response_json (response : Response) : result json :=
  match json_body response with
  | inl v => Return v
  | inr f => Throw f
  end.

(** [data.get(key, dflt)]; on a value without [get] the [AttributeError]. *)
Definition get (data : json) (key : string) (dflt : json) : result json :=
  match py_get data key dflt with
  | Ok v => Return v
  | Raise e => Throw (OtherException (exn_str e))
  | Exit _ => Throw (OtherException EmptyString)
  end.

(** A value inside an f-string. *)
Definition fmt (env : Env) (v : json) : string :=
  match v with
  | JStr s => s
  | _ => str env v
  end.

(** [str(n)] for an [int]. *)
Definition show_Z (n : Z) : string := NilZero.string_of_int (Z.to_int n).

(** [f"{n:02d}"] *)
Definition show_02d (n : Z) : string :=
  let s := show_Z n in
  if (String.length s <? 2)%nat then "0" ++ s else s.

(** [int(s)] for a text of ASCII digits, which the slices of [TEST_SA_ID]
    are; no other text is converted here. *)
Definition int (s : string) : result Z :=
  match NilZero.uint_of_string s with
  | Some n => Return (Z.of_uint n)
  | None =>
      Throw (OtherException ("invalid literal for int() with base 10: '" ++ s ++ "'"))
  end.

(** [s * n] *)
Fixpoint repeat_string (s : string) (n : nat) : string :=
  match n with
  | O => EmptyString
  | S n' => s ++ repeat_string s n'
  end.

(** The truth value of a JSON value in a condition. *)
Definition truthy (v : json) : bool :=
  match v with
  | JNull => false
  | JBool b => b
  | JInt n => negb (n =? 0)
  | JFloat x => negb (PrimFloat.eqb x 0%float)
  | JStr s => negb (String.eqb s EmptyString)
  | JArr xs => negb (Nat.eqb (length xs) 0)
  | JObj d => negb (Nat.eqb (size d) 0)
  end.

(** ** Configuration (lines 13-14) *)

Definition BASE_URL : string := "http://localhost:3001/api".
Definition TEST_SA_ID : string := "7807215422081".

(** ** [log_test] (lines 23-36) *)

(** The entry [log_test] appends. *)
Definition log_entry (test_name : string) (success : bool) (message stamp : string)
    (details : option (gmap string json)) : json :=
  JObj {[
    "test" := JStr test_name;
    "success" := JBool success;
    "message" := JStr message;
    "timestamp" := JStr stamp;
    "details" := JObj (match details with
                       | Some d => if Nat.eqb (size d) 0 then ∅ else d
                       | None => ∅
                       end)
  ]}.

Definition log_test (env : Env) (test_name : string) (success : bool) (message : string)
    (details : option (gmap string json)) : T unit :=
  do stamp <- datetime_now env;
  run append_result (log_entry test_name success message (isoformat stamp) details);
  let status := if success then "✅ PASS" else "❌ FAIL" in
  run print (status ++ ": " ++ test_name ++ " - " ++ message);
  match details with
  | Some d =>
      if negb (Nat.eqb (size d) 0) && negb success
      then print ("   Details: " ++ repr env (JObj d))
      else ret tt
  | None => ret tt
  end.

(** ** [test_health_check] (lines 38-56) *)

Definition test_health_check (env : Env) : T bool :=
  try_request
    (do response <- session_get env (BASE_URL ++ "/health") 10;
     if status_code response =? 200 then
       do data <- lift (response_json response);
       do uptime <- lift (get data "uptime" (JStr "unknown"));
       do status <- lift (get data "status" JNull);
       do features <- lift (get data "features" JNull);
       run log_test env "Health Check" true
             ("Backend server is running (uptime: " ++ fmt env uptime ++ "s)")
             (Some {[ "status" := status; "features" := features ]});
       ret true
     else
       run log_test env "Health Check" false
             ("Health endpoint returned " ++ show_Z (status_code response)) None;
       ret false)
    (fun e =>
       run log_test env "Health Check" false
             ("Cannot connect to backend server: " ++ e) None;
       ret false).

(** ** [test_patient_creation_without_auth] (lines 58-104) *)

(** The patient of lines 60-76 and 163-179, key by key in the order of the
    source. *)
Definition patient_items : list (string * json) :=
  [ ("initials", JStr "T.P.");
    ("firstName", JStr "Test");
    ("surname", JStr "Patient Branch");
    ("idNumber", JStr TEST_SA_ID);
    ("dateOfBirth", JStr "1978-07-21");
    ("maritalStatus", JStr "single");
    ("gender", JStr "male");
    ("phone", JStr "+27123456789");
    ("email", JStr "test@example.com");
    ("employerName", JStr "ABC Mining Corp");
    ("position", JStr "Miner");
    ("department", JStr "Operations");
    ("employeeNumber", JStr "EMP001");
    ("examinationType", JStr "pre_employment");
    ("location", JStr "Johannesburg") ].

Definition patient_data : gmap string json := list_to_map patient_items.

Definition test_patient_creation_without_auth (env : Env) : T bool :=
  try_request
    (do response <- session_post env (BASE_URL ++ "/patients/create") (JObj patient_data) 10;
     if status_code response =? 401 then
       do body <- lift (response_json response);
       run log_test env "Patient Creation - No Auth" true
             "Correctly rejected request without authentication"
             (Some {[ "status_code" := JInt (status_code response); "response" := body ]});
       ret true
     else
       run log_test env "Patient Creation - No Auth" false
             ("Expected 401 Unauthorized, got " ++ show_Z (status_code response))
             (Some {[ "response" := JStr (take_chars 200 (text response)) ]});
       ret false)
    (fun e =>
       run log_test env "Patient Creation - No Auth" false ("Request failed: " ++ e) None;
       ret false).

(** ** [test_sa_id_validation_utility] (lines 106-153) *)

(** Lines 116-119: the year of birth for the two digits [yy], read in the
    year [current_year]. *)
Definition full_year_of (current_year yy : Z) : Z :=
  let current_century := (current_year / 100) * 100 in
  if 50 <=? yy then current_century - 100 + yy else current_century + yy.

(** Lines 122-125: the age on the day [today]. *)
Definition age_on (today : DateTime) (full_year mm dd : Z) : Z :=
  let age := year today - full_year in
  if (month today <? mm) || ((month today =? mm) && (day today <? dd))
  then age - 1 else age.

Definition test_sa_id_validation_utility (env : Env) : T bool :=
  let test_id := TEST_SA_ID in
  do yy <- lift (int (String.substring 0 2 test_id));
  do mm <- lift (int (String.substring 2 2 test_id));
  do dd <- lift (int (String.substring 4 2 test_id));
  do reading <- datetime_now env;
  let current_year := year reading in
  let full_year := full_year_of current_year yy in
  do today <- datetime_now env;
  let age := age_on today full_year mm dd in
  let expected_age := 46 in
  if age =? expected_age then
    run log_test env "SA ID Validation Logic" true
          ("SA ID " ++ TEST_SA_ID ++ " correctly calculates age as " ++ show_Z age ++ " years")
          (Some {[ "sa_id" := JStr TEST_SA_ID;
                   "extracted_date" :=
                     JStr (show_Z full_year ++ "-" ++ show_02d mm ++ "-" ++ show_02d dd);
                   "calculated_age" := JInt age;
                   "expected_age" := JInt expected_age ]});
    ret true
  else
    run log_test env "SA ID Validation Logic" false
          ("SA ID " ++ TEST_SA_ID ++ " calculated age " ++ show_Z age ++
           ", expected " ++ show_Z expected_age)
          (Some {[ "sa_id" := JStr TEST_SA_ID;
                   "calculated_age" := JInt age;
                   "expected_age" := JInt expected_age ]});
    ret false.

(** ** [test_patient_data_structure] (lines 155-205) *)

Definition required_fields : list string :=
  [ "initials"; "firstName"; "surname"; "idNumber"; "dateOfBirth";
    "maritalStatus"; "gender"; "phone"; "email"; "employerName";
    "examinationType" ].

(** [[field for field in required if field not in data]] *)
Definition missing_from (data : gmap string json) (required : list string) : list string :=
  List.filter (fun field => match data !! field with None => true | Some _ => false end)
    required.

Definition test_patient_data_structure (env : Env) : T bool :=
  let sample_data := patient_data in
  let missing_fields := missing_from sample_data required_fields in
  match missing_fields with
  | [] =>
      run log_test env "Patient Data Structure" true
            "All required fields present in patient data structure"
            (Some {[ "required_fields" := JArr (map JStr required_fields);
                     "sample_data_keys" := JArr (map (fun kv => JStr kv.1) patient_items);
                     "validation" := JStr "All required fields present" ]});
      ret true
  | _ =>
      run log_test env "Patient Data Structure" false
            ("Missing required fields: " ++ repr env (JArr (map JStr missing_fields)))
            (Some {[ "missing_fields" := JArr (map JStr missing_fields);
                     "required_fields" := JArr (map JStr required_fields) ]});
      ret false
  end.

(** ** [test_database_connection] (lines 207-234) *)

Definition test_database_connection (env : Env) : T bool :=
  try_request
    (do response <- session_get env (BASE_URL ++ "/health") 10;
     if status_code response =? 200 then
       do data <- lift (response_json response);
       do status <- lift (get data "status" JNull);
       if eq_str status "healthy" then
         do status <- lift (get data "status" JNull);
         run log_test env "Database Connection" true
               "Database connection appears healthy (via health check)"
               (Some {[ "health_status" := status ]});
         ret true
       else
         do status <- lift (get data "status" JNull);
         run log_test env "Database Connection" false
               ("Health check shows unhealthy status: " ++ fmt env status) None;
         ret false
     else
       run log_test env "Database Connection" false
             ("Health check failed with status " ++ show_Z (status_code response)) None;
       ret false)
    (fun e =>
       run log_test env "Database Connection" false
             ("Cannot test database connection: " ++ e) None;
       ret false).

(** ** [test_api_endpoints_structure] (lines 236-277) *)

Definition endpoints_to_test : list (string * string) :=
  [ ("/patients/create", "POST"); ("/patients", "GET"); ("/health", "GET") ].

Definition expected_codes : list Z := [200; 401; 400].

(** One turn of the loop of lines 245-260, with the local [response] as the
    turns before left it ([None]: not bound yet): the flag appended to
    [results], and [response] after the turn. *)
Definition probe (env : Env) (previous : option Response) (endpoint method : string)
    : T (bool * option Response) :=
  try_request
    (do response <-
       (if String.eqb method "GET" then
          do r <- session_get env (BASE_URL ++ endpoint) 5; ret (Some r)
        else if String.eqb method "POST" then
          do r <- session_post env (BASE_URL ++ endpoint) (JObj ∅) 5; ret (Some r)
        else ret previous);
     match response with
     | Some r => ret (bool_decide (status_code r ∈ expected_codes), response)
     | None =>
         lift (Throw (OtherException
           "cannot access local variable 'response' where it is not associated with a value"))
     end)
    (fun _ => ret (false, previous)).

Fixpoint probe_all (env : Env) (previous : option Response)
    (endpoints : list (string * string)) : T (list bool) :=
  match endpoints with
  | [] => ret []
  | (endpoint, method) :: rest =>
      do turn <- probe env previous endpoint method;
      do flags <- probe_all env turn.2 rest;
      ret (turn.1 :: flags)
  end.

Definition test_api_endpoints_structure (env : Env) : T bool :=
  do results <- probe_all env None endpoints_to_test;
  let tested :=
    JArr (map (fun em => JStr (em.2 ++ " " ++ em.1)) endpoints_to_test) in
  if forallb id results then
    run log_test env "API Endpoints Structure" true
          "All expected API endpoints are accessible"
          (Some {[ "tested_endpoints" := tested ]});
    ret true
  else
    run log_test env "API Endpoints Structure" false
          "Some API endpoints are not accessible"
          (Some {[ "tested_endpoints" := tested ]});
    ret false.

(** ** [run_all_tests] (lines 279-311) *)

(** The tests of lines 284-291, each with its [__name__]. *)
Definition tests (env : Env) : list (string * T bool) :=
  [ ("test_health_check", test_health_check env);
    ("test_database_connection", test_database_connection env);
    ("test_api_endpoints_structure", test_api_endpoints_structure env);
    ("test_patient_data_structure", test_patient_data_structure env);
    ("test_sa_id_validation_utility", test_sa_id_validation_utility env);
    ("test_patient_creation_without_auth", test_patient_creation_without_auth env) ].

(** The loop of lines 296-301, from the count [passed] on. *)
Fixpoint run_tests (env : Env) (remaining : list (string * T bool)) (passed : nat) : T nat :=
  match remaining with
  | [] => ret passed
  | (name, test) :: rest =>
      do passed' <-
        try_exception
          (do ok <- test;
           ret (if ok then S passed else passed))
          (fun e =>
             run log_test env name false
                   ("Test failed with exception: " ++ fault_str e) None;
             ret passed);
      run_tests env rest passed'
  end.

Definition run_all_tests (env : Env) : T bool :=
  run print "🚀 Starting SurgiScan Backend API Tests";
  run print (repeat_string "=" 50);
  let total := length (tests env) in
  do passed <- run_tests env (tests env) 0;
  run print (nl ++ repeat_string "=" 50);
  run print ("📊 Test Results: " ++ show_Z (Z.of_nat passed) ++ "/" ++
             show_Z (Z.of_nat total) ++ " tests passed");
  if Nat.eqb passed total then
    run print "🎉 All backend tests passed!";
    ret true
  else
    run print ("⚠️  " ++ show_Z (Z.of_nat total - Z.of_nat passed) ++ " tests failed");
    ret false.

(** ** [get_summary] (lines 313-324) *)

(** [result["success"]] as a condition. *)
Definition succeeded (entry : json) : result bool :=
  match py_getitem entry "success" with
  | Ok v => Return (truthy v)
  | Raise e => Throw (OtherException (exn_str e))
  | Exit _ => Throw (OtherException EmptyString)
  end.

(** [sum(1 for result in results if result["success"])] *)
Fixpoint count_passed (results : list json) : result nat :=
  match results with
  | [] => Return 0%nat
  | entry :: rest =>
      match succeeded entry with
      | Return ok =>
          match count_passed rest with
          | Return n => Return (if ok then S n else n)
          | Throw f => Throw f
          end
      | Throw f => Throw f
      end
  end.

Definition get_summary (env : Env) : T json :=
  fun st =>
    (match count_passed (test_results st) with
     | Return passed =>
         let total := length (test_results st) in
         Return (JObj {[
           "total_tests" := JInt (Z.of_nat total);
           "passed" := JInt (Z.of_nat passed);
           "failed" := JInt (Z.of_nat total - Z.of_nat passed);
           "success_rate" :=
             JStr (if (0 <? total)%nat then percent env passed total ++ "%" else "0%");
           "results" := JArr (test_results st)
         ]})
     | Throw f => Throw f
     end, st).

(** ** [main] (lines 326-348) *)

(** [summary[key]] inside an f-string; the four keys read are set by
    [get_summary]. *)
Definition summary_field (env : Env) (summary : json) (key : string) : string :=
  match field summary key with
  | Some (JInt n) => show_Z n
  | Some v => fmt env v
  | None => EmptyString
  end.

Definition main (env : Env) : T Z :=
  run print "SurgiScan Backend API Testing";
  run print ("Testing against: " ++ BASE_URL);
  run print ("Test SA ID: " ++ TEST_SA_ID ++ " (Expected Age: 46 years)");
  run print EmptyString;
  do success <- run_all_tests env;
  do summary <- get_summary env;
  run print (nl ++ "📋 Final Summary:");
  run print ("   Total Tests: " ++ summary_field env summary "total_tests");
  run print ("   Passed: " ++ summary_field env summary "passed");
  run print ("   Failed: " ++ summary_field env summary "failed");
  run print ("   Success Rate: " ++ summary_field env summary "success_rate");
  run lift (match dump env "/app/backend_test_results.json" summary with
            | None => Return tt
            | Some f => Throw f
            end);
  ret (if success then 0 else 1).

(** ** What is observed of a run *)

(** A test that ends with a verdict has logged one entry, with that verdict
    as its [success]; a test that raises has logged nothing. *)
Definition logs_its_verdict (test : T bool) : Prop :=
  forall st,
    match test st with
    | (Return b, st') =>
        exists entry,
          test_results st' = (test_results st ++ [entry])%list /\
          field entry "success" = Some (JBool b)
    | (Throw _, st') => test_results st' = test_results st
    end.

(** The [success] of a logged entry. *)
Definition verdict (entry : json) : option bool :=
  match field entry "success" with
  | Some (JBool b) => Some b
  | _ => None
  end.

Definition passed_entry (entry : json) : bool :=
  match verdict entry with
  | Some true => true
  | _ => false
  end.

Definition count_successes (entries : list json) : nat :=
  length (List.filter passed_entry entries).

(** The day [today] falls before the 21st of July. *)
Definition before_birthday (today : DateTime) : bool :=
  (month today <? 7) || ((month today =? 7) && (day today <? 21)).

(** An answer with one of the expected status codes. *)
Definition acceptable (answer : Response + string) : bool :=
  match answer with
  | inl response => bool_decide (status_code response ∈ expected_codes)
  | inr _ => false
  end.

(** ** Scripted environments for the examples *)

Definition march_14_2025 : DateTime :=
  {| year := 2025; month := 3; day := 14; isoformat := "2025-03-14T09:30:00" |}.

(** The renderings of [(passed/total)*100] the examples need. *)
Definition percent_of (passed total : nat) : string :=
  match passed, total with
  | 6%nat, 6%nat => "100.0"
  | 2%nat, 6%nat => "33.3"
  | 1%nat, 6%nat => "16.7"
  | _, _ => "0.0"
  end.

Definition scripted_env (answer : HttpRequest -> Response + string) (today : DateTime) : Env :=
  {| send := fun _ => answer;
     now := fun _ => today;
     str := fun v => "<" ++ type_name v ++ ">";
     repr := fun v => "<" ++ type_name v ++ ">";
     percent := percent_of;
     dump := fun _ _ => None |}.

(** No server listens. *)
Definition offline_env : Env :=
  scripted_env (fun _ => inr "Connection refused") march_14_2025.

(** A server that is up and asks for authentication. *)
Definition healthy_answer (req : HttpRequest) : Response + string :=
  if String.eqb (http_url req) (BASE_URL ++ "/health") then
    inl {| status_code := 200;
           json_body := inl (JObj {[ "status" := JStr "healthy"; "uptime" := JInt 12 ]});
           text := "{}" |}
  else
    inl {| status_code := 401;
           json_body := inl (JObj {[ "error" := JStr "Unauthorized" ]});
           text := "{}" |}.

Definition healthy_env : Env := scripted_env healthy_answer march_14_2025.

(** The tester after [run_all_tests] with no server listening. *)
Definition offline_run : Run := snd (run_all_tests offline_env init).

End BackendTest.

(** ** Properties of [execute_query] *)

Ltac lookup_inserted :=
  repeat (rewrite lookup_insert_eq || rewrite lookup_insert_ne by discriminate).

Lemma set_results_object (table : json) (rows : list json) (d : gmap string json) :
  table = JArr rows ->
  set_results table (JObj d) =
    (Ok tt, JObj (<["resultCount" := JInt (Z.of_nat (length rows))]>
                    (<["results" := table]> d))).
Proof.
  intros ->. unfold set_results, bind, self_setitem, self_getitem, lift. cbn.
  now rewrite lookup_insert_eq.
Qed.

(** On an object, [execute_query] never raises; what it returns is read off
    the query type. *)
Lemma execute_query_object (d : gmap string json) (query_data : json) :
  execute_query (JObj d) query_data =
    Ok (JObj
      (if eq_str (query_type_of d) "PATIENT_SEARCH" then
         <["resultCount" := JInt 4]> (<["results" := get_mock_patient_search_results]> d)
       else if eq_str (query_type_of d) "MEDICAL_ANALYSIS" then
         <["charts" := get_mock_medical_charts]>
           (<["resultCount" := JInt 4]> (<["results" := get_mock_medical_analysis_results]> d))
       else if eq_str (query_type_of d) "COMPLIANCE_REPORTING" then
         <["charts" := get_mock_compliance_charts]>
           (<["resultCount" := JInt 3]> (<["results" := get_mock_compliance_results]> d))
       else if eq_str (query_type_of d) "RISK_ASSESSMENT" then
         <["resultCount" := JInt 3]> (<["results" := get_mock_risk_assessment_results]> d)
       else if eq_str (query_type_of d) "OPERATIONAL_INSIGHTS" then
         <["charts" := get_mock_operational_charts]>
           (<["resultCount" := JInt 3]> (<["results" := get_mock_operational_results]> d))
       else d)).
Proof.
  unfold execute_query, try_except, execute_query_body.
  unfold bind at 1. unfold self_get at 1. cbn [py_get].
  unfold bind at 1. unfold self_get at 1. cbn [py_get].
  fold (query_type_of d).
  unfold bind at 1.
  repeat (destruct (eq_str (query_type_of d) _);
    [ unfold bind; erewrite set_results_object by reflexivity; reflexivity | ]).
  reflexivity.
Qed.

(** On anything else the [try] block raises at its first statement and the
    handler raises in turn, at its own first statement. *)
Lemma execute_query_not_object (v query_data : json) :
  (forall d, v <> JObj d) ->
  exists msg, execute_query v query_data = Raise (TypeError msg).
Proof.
  intros Hv. destruct v; try (eexists; reflexivity).
  now destruct (Hv d).
Qed.

(** ** The paths of [process_query] *)

Lemma py_getitem_Ok (o : json) (key : string) (v : json) :
  py_getitem o key = Ok v -> exists d, o = JObj d /\ d !! key = Some v.
Proof.
  destruct o; try discriminate. cbn.
  destruct (d !! key) eqn:E; [ | discriminate ].
  intros [= ->]. eauto.
Qed.

Lemma py_getitem_not_Exit (o : json) (key : string) (c : Z) :
  py_getitem o key <> Exit c.
Proof. destruct o; try discriminate. cbn. now destruct (d !! key). Qed.

Lemma same_effects (st : Effects) :
  st = {| calls := calls st ++ []; stdout := stdout st |}.
Proof. destruct st; cbn. now rewrite app_nil_r. Qed.

Lemma process_query_answer (w : World) (query_data : json) (st : Effects) :
  exists r sent,
    process_query w (init w) query_data st =
      (r, {| calls := calls st ++ sent; stdout := stdout st |}) /\
    answer w query_data r sent.
Proof.
  unfold process_query, try_except, process_query_body.
  unfold bind at 1. unfold lift at 1.
  destruct (py_getitem query_data "query") as [q | e | c] eqn:Hq.
  - apply py_getitem_Ok in Hq as (d & -> & Hq).
    unfold bind at 1. unfold lift at 1. cbn [py_get].
    cbn [openai_api_key init].
    destruct (getenv_OPENAI_API_KEY w) as [[ | ch key] | ] eqn:Hkey.
    + exists (Ok (create_mock_response w q "OpenAI API key not configured")), [].
      split; [ cbn; f_equal; apply same_effects | ].
      eapply config_error; eauto. now right.
    + set (k := String ch key) in *.
      assert (Hk : k <> EmptyString) by discriminate.
      clearbody k.
      change (chat_request w (init w) k (JObj d) q
                (default (JStr "staff") (d !! "userRole")))
        with (Ok (request_for w k d q)).
      unfold bind at 1. unfold lift at 1.
      unfold bind at 1. unfold send at 1.
      destruct (send_message w (request_for w k d q)) as [t | msg] eqn:Hsend.
      * unfold parse_ai_response, try_except.
        unfold bind at 1. unfold lift at 1. unfold loads.
        destruct (json_loads w t) as [v | e] eqn:Hloads.
        -- unfold bind at 1. unfold lift at 1.
           destruct (py_setitem v "executionTime" (JStr (elapsed_ms w ++ "ms")))
             as [v' | e | c] eqn:Hset.
           ++ destruct v; try discriminate. injection Hset as <-.
              unfold bind at 1. unfold lift at 1.
              rewrite execute_query_object.
              eexists _, [request_for w k d q]. split; [ reflexivity | ].
              eapply decoded_object; eauto. apply execute_query_object.
           ++ assert (He : is_JSONDecodeError e = false)
                by (destruct v; try discriminate; injection Hset as <-; reflexivity).
              rewrite He. cbn [any_Exception].
              unfold process_query_handler, local_query, bind, lift, ret.
              cbn [py_getitem]. rewrite Hq.
              eexists _, [request_for w k d q]. split; [ reflexivity | ].
              eapply decoded_other; eauto.
           ++ destruct v; discriminate.
        -- destruct (is_JSONDecodeError e) eqn:He.
           ++ unfold ret.
              eexists _, [request_for w k d q]. split; [ reflexivity | ].
              destruct e; try discriminate. eapply parse_degraded; eauto.
           ++ cbn [any_Exception].
              unfold process_query_handler, local_query, bind, lift, ret.
              cbn [py_getitem]. rewrite Hq.
              eexists _, [request_for w k d q]. split; [ reflexivity | ].
              eapply decode_fault; eauto.
      * cbn [any_Exception].
        unfold process_query_handler, local_query, bind, lift, ret.
        cbn [py_getitem]. rewrite Hq.
        eexists _, [request_for w k d q]. split; [ reflexivity | ].
        eapply upstream_error; eauto.
    + exists (Ok (create_mock_response w q "OpenAI API key not configured")), [].
      split; [ cbn; f_equal; apply same_effects | ].
      eapply config_error; eauto. now left.
  - cbn [any_Exception].
    unfold process_query_handler, local_query, bind, lift.
    rewrite Hq.
    exists (Raise (UnboundLocalError query_unbound_message)), [].
    split; [ f_equal; apply same_effects | ].
    eapply query_unbound; eauto.
  - now apply py_getitem_not_Exit in Hq.
Qed.

Lemma answer_response (w : World) (query_data : json) :
  answer w query_data (response w query_data) (upstream_calls w query_data).
Proof.
  unfold response, upstream_calls.
  destruct (process_query_answer w query_data no_effects) as (r & sent & -> & Ha).
  exact Ha.
Qed.

(** Without the credential nothing is sent, whatever the request. *)
Lemma unconfigured_calls (w : World) (query_data : json) :
  credential_missing w -> upstream_calls w query_data = [].
Proof.
  intros Hmiss. pose proof (answer_response w query_data) as Ha.
  destruct Ha as [ | | ? ? ? ? ? ? Hkey Hne | ? ? ? ? ? ? ? Hkey Hne
                 | ? ? ? ? ? ? ? ? Hkey Hne | ? ? ? ? ? ? ? ? Hkey Hne
                 | ? ? ? ? ? ? ? Hkey Hne ];
    try reflexivity;
    destruct Hmiss as [Hm | Hm]; rewrite Hm in Hkey; congruence.
Qed.

(** Without the credential a request that carries a query is answered by
    [create_mock_response]. *)
Lemma unconfigured_response (w : World) (d : gmap string json) (q : json) :
  credential_missing w -> d !! "query" = Some q ->
  response w (JObj d) = Ok (create_mock_response w q "OpenAI API key not configured").
Proof.
  intros Hmiss Hq. pose proof (answer_response w (JObj d)) as Ha.
  remember (response w (JObj d)) as r eqn:Hr. clear Hr.
  remember (JObj d) as qd eqn:Hqd.
  destruct Ha as [ e He | d' q' Hd Hq' _
                 | ? ? ? ? ? ? Hkey Hne | ? ? ? ? ? ? ? Hkey Hne
                 | ? ? ? ? ? ? ? ? Hkey Hne | ? ? ? ? ? ? ? ? Hkey Hne
                 | ? ? ? ? ? ? ? Hkey Hne ];
    try (destruct Hmiss as [Hm | Hm]; rewrite Hm in Hkey; congruence).
  - subst qd. cbn in He. rewrite Hq in He. discriminate.
  - subst qd. injection Hd as <-. rewrite Hq in Hq'. now injection Hq' as <-.
Qed.

(** With the credential a request that carries a query is sent to the chat
    client, once. *)
Lemma configured_calls (w : World) (d : gmap string json) (q : json) :
  ~ credential_missing w -> d !! "query" = Some q ->
  exists key, getenv_OPENAI_API_KEY w = Some key /\
    upstream_calls w (JObj d) = [request_for w key d q].
Proof.
  intros Hconf Hq. pose proof (answer_response w (JObj d)) as Ha.
  remember (response w (JObj d)) as r eqn:Hr. clear Hr.
  remember (upstream_calls w (JObj d)) as sent eqn:Hs. clear Hs.
  remember (JObj d) as qd eqn:Hqd.
  destruct Ha as [ e He | d' q' Hd Hq' Hmiss
                 | d' q' key ? Hd Hq' Hkey Hne | d' q' key ? ? Hd Hq' Hkey Hne
                 | d' q' key ? ? ? Hd Hq' Hkey Hne | d' q' key ? ? ? Hd Hq' Hkey Hne
                 | d' q' key ? ? Hd Hq' Hkey Hne ];
    subst qd;
    try (injection Hd as <-; rewrite Hq in Hq'; injection Hq' as <-; eauto).
  - cbn in He. rewrite Hq in He. discriminate.
  - contradiction.
Qed.

(** What [replied] tells about the invocation. *)
Lemma replied_inv (w : World) (query_data : json) (t : string) :
  replied w query_data t ->
  exists d q key,
    query_data = JObj d /\ d !! "query" = Some q /\
    getenv_OPENAI_API_KEY w = Some key /\ key <> EmptyString /\
    upstream_calls w query_data = [request_for w key d q] /\
    send_message w (request_for w key d q) = inl t.
Proof.
  intros (req & Hcalls & Hsend). pose proof (answer_response w query_data) as Ha.
  rewrite Hcalls in Ha.
  remember (response w query_data) as r eqn:Hr. clear Hr.
  remember [req] as sent eqn:Hs.
  destruct Ha; try discriminate; injection Hs as <-;
    exists d, q, key; repeat split; auto; congruence.
Qed.

(** The fallback path. *)
Lemma degraded_response (w : World) (query_data : json) (t : string) :
  degraded_parse w query_data t ->
  exists q, field query_data "query" = Some q /\
    response w query_data = Ok (parse_natural_response w t q (elapsed_ms w)).
Proof.
  intros (Hrep & msg & Hloads).
  destruct (replied_inv _ _ _ Hrep) as (d & q & key & -> & Hq & Hkey & Hne & Hcalls & Hsend).
  exists q. split; [ exact Hq | ].
  pose proof (answer_response w (JObj d)) as Ha. rewrite Hcalls in Ha.
  remember (response w (JObj d)) as r eqn:Hr. clear Hr.
  remember [request_for w key d q] as sent eqn:Hs.
  remember (JObj d) as qd eqn:Hqd.
  destruct Ha as [ | | d' q' key' ? Hd Hq' Hkey' _ Hsend'
                 | d' q' key' t' ? Hd Hq' Hkey' _ Hsend' Hloads'
                 | d' q' key' t' ? ? Hd Hq' Hkey' _ Hsend' Hloads'
                 | d' q' key' t' ? ? Hd Hq' Hkey' _ Hsend' Hloads'
                 | d' q' key' t' e' Hd Hq' Hkey' _ Hsend' Hloads' He' ];
    try discriminate; subst qd; injection Hd as <-;
    rewrite Hq in Hq'; injection Hq' as <-;
    rewrite Hkey in Hkey'; injection Hkey' as <-;
    rewrite Hsend in Hsend'; try discriminate; injection Hsend' as <-;
    rewrite Hloads in Hloads'; try discriminate.
  - reflexivity.
  - injection Hloads' as <-. discriminate.
Qed.

(** The decoded path: the reply, with its [executionTime], goes through
    [execute_query]. *)
Lemma decoded_response (w : World) (query_data : json) (d : gmap string json) :
  decoded_as w query_data d ->
  response w query_data =
    execute_query (JObj (<["executionTime" := JStr (elapsed_ms w ++ "ms")]> d)) query_data.
Proof.
  intros (t & Hrep & Hloads).
  destruct (replied_inv _ _ _ Hrep) as (qd & q & key & -> & Hq & Hkey & Hne & Hcalls & Hsend).
  pose proof (answer_response w (JObj qd)) as Ha. rewrite Hcalls in Ha.
  remember (response w (JObj qd)) as r eqn:Hr. clear Hr.
  remember [request_for w key qd q] as sent eqn:Hs.
  remember (JObj qd) as o eqn:Ho.
  destruct Ha as [ | | d' q' key' ? Hd Hq' Hkey' _ Hsend'
                 | d' q' key' t' ? Hd Hq' Hkey' _ Hsend' Hloads'
                 | d' q' key' t' ? ? Hd Hq' Hkey' _ Hsend' Hloads' Hexec
                 | d' q' key' t' ? ? Hd Hq' Hkey' _ Hsend' Hloads' Hset
                 | d' q' key' t' e' Hd Hq' Hkey' _ Hsend' Hloads' He' ];
    try discriminate; subst o; injection Hd as <-;
    rewrite Hq in Hq'; injection Hq' as <-;
    rewrite Hkey in Hkey'; injection Hkey' as <-;
    rewrite Hsend in Hsend'; try discriminate; injection Hsend' as <-;
    rewrite Hloads in Hloads'; try discriminate.
  - injection Hloads' as <-. now rewrite Hexec.
  - injection Hloads' as <-. discriminate.
Qed.

(** Every response comes from one of four places. *)
Lemma response_cases (w : World) (query_data r : json) :
  response w query_data = Ok r ->
  (credential_missing w /\ exists q, field query_data "query" = Some q /\
     r = create_mock_response w q "OpenAI API key not configured") \/
  (exists t q, degraded_parse w query_data t /\
     r = parse_natural_response w t q (elapsed_ms w)) \/
  (exists d, decoded_as w query_data d /\
     execute_query (JObj (<["executionTime" := JStr (elapsed_ms w ++ "ms")]> d)) query_data
       = Ok r) \/
  (exists e q req, upstream_calls w query_data = [req] /\ r = failure_envelope w e q).
Proof.
  intros Hr. pose proof (answer_response w query_data) as Ha.
  rewrite Hr in Ha.
  remember (upstream_calls w query_data) as sent eqn:Hs.
  remember (Ok r) as o eqn:Ho.
  destruct Ha as [ | d q Hd Hq Hmiss
                 | d q key msg Hd Hq Hkey Hne Hsend
                 | d q key t msg Hd Hq Hkey Hne Hsend Hloads
                 | d q key t r0 r' Hd Hq Hkey Hne Hsend Hloads Hexec
                 | d q key t v e Hd Hq Hkey Hne Hsend Hloads Hset
                 | d q key t e Hd Hq Hkey Hne Hsend Hloads He ];
    try discriminate; injection Ho as <-; subst query_data.
  - left. eauto.
  - right. right. right. eauto.
  - right. left. exists t, q. split; [ | reflexivity ].
    split; [ exists (request_for w key d q); auto | eauto ].
  - right. right. left. exists r0. split; [ | exact Hexec ].
    exists t. split; [ exists (request_for w key d q); auto | exact Hloads ].
  - right. right. right. eauto.
  - right. right. right. eauto.
Qed.

(** [execute_query] leaves every key it does not assign to as it was. *)
Lemma execute_query_other_keys (d : gmap string json) (query_data : json) (key : string) :
  key ∉ assigned_keys ->
  exists d', execute_query (JObj d) query_data = Ok (JObj d') /\ d' !! key = d !! key.
Proof.
  intros Hkey. rewrite execute_query_object.
  assert (key <> "results" /\ key <> "resultCount" /\ key <> "charts") as (H1 & H2 & H3).
  { unfold assigned_keys in Hkey. repeat split; intros ->; apply Hkey; set_solver. }
  repeat (destruct (eq_str (query_type_of d) _);
    [ eexists; split; [ reflexivity | ];
      rewrite ?lookup_insert_ne by congruence; reflexivity | ]).
  eauto.
Qed.

(** For a type with no branch the object is returned as it came. *)
Lemma execute_query_unrouted (d : gmap string json) (query_data : json) :
  routed d = false -> execute_query (JObj d) query_data = Ok (JObj d).
Proof.
  unfold routed. cbn [existsb routed_types]. intros H.
  rewrite execute_query_object.
  repeat (apply orb_false_elim in H as [-> H]).
  reflexivity.
Qed.

Lemma query_type_of_insert (d : gmap string json) (key : string) (v : json) :
  key <> "queryType" -> query_type_of (<[key := v]> d) = query_type_of d.
Proof. intros H. unfold query_type_of. now rewrite lookup_insert_ne. Qed.

(** ** The frame of [execute_query] *)

(** C10. For every decoded result (an object) and every query type,
    [execute_query] returns the object and assigns to no key other than
    [results], [resultCount] and [charts]: any other key, [interpretation],
    [queryType], [mongoQuery], [sqlQuery], [executionTime], [summary] and
    [suggestions] among them, has on return the value (or the absence) it
    had on entry. No fault occurs on an object, so [error] and [success]
    are among the keys left alone. A value that is not an object is never
    returned: the call raises [TypeError]. *)
Theorem execute_query_frame (ai_result query_data : json) (key : string) :
  key ∉ assigned_keys ->
  (forall d, ai_result = JObj d ->
     exists d', execute_query ai_result query_data = Ok (JObj d') /\
                d' !! key = d !! key) /\
  ((forall d, ai_result <> JObj d) ->
     exists msg, execute_query ai_result query_data = Raise (TypeError msg)).
Proof.
  intros Hkey. split.
  - intros d ->. now apply execute_query_other_keys.
  - apply execute_query_not_object.
Qed.

Lemma execute_query_frame_witness :
  (forall d, JObj compliance_decoded = JObj d ->
     exists d', execute_query (JObj compliance_decoded) compliance_request = Ok (JObj d') /\
                d' !! "success" = d !! "success") /\
  ((forall d, JObj compliance_decoded <> JObj d) ->
     exists msg,
       execute_query (JObj compliance_decoded) compliance_request = Raise (TypeError msg)).
Proof.
  apply (execute_query_frame (JObj compliance_decoded) compliance_request "success").
  apply (bool_decide_unpack _). vm_compute. exact I.
Defined.

(** ** Query types without a branch *)

(** C9 fails as stated: the reply
    [{"queryType": "GENERAL", "results": [{"count": 42}], "resultCount": 0, "charts": [{"type": "pie"}]}]
    has a query type with no branch, and the response carries its
    [results] and [charts], neither of them empty. *)
Lemma unrouted_results_not_emptied :
  decoded_as general_world names_request general_decoded /\
  routed general_decoded = false /\
  exists r, response general_world names_request = Ok r /\
    field r "results" = Some (JArr [JObj {[ "count" := JInt 42 ]}]) /\
    field r "results" <> Some (JArr []) /\
    field r "charts" <> Some (JArr []).
Proof.
  split; [ | split ].
  - exists general_reply. split; [ | reflexivity ].
    eexists. split; [ vm_compute; reflexivity | reflexivity ].
  - reflexivity.
  - eexists. split; [ vm_compute; reflexivity | ].
    split; [ reflexivity | ]. split; discriminate.
Qed.

(** C9, amended. For every decoded object whose query type is not one of the
    five with a branch, the response is the decoded object with its
    [executionTime] set and nothing else touched: [results], [resultCount]
    and [charts] are what the reply gave (absent when it gave none). *)
Theorem unrouted_passes_through (w : World) (query_data : json) (d : gmap string json) :
  decoded_as w query_data d ->
  routed d = false ->
  exists r,
    response w query_data = Ok r /\
    r = JObj (<["executionTime" := JStr (elapsed_ms w ++ "ms")]> d) /\
    field r "results" = d !! "results" /\
    field r "resultCount" = d !! "resultCount" /\
    field r "charts" = d !! "charts".
Proof.
  intros Hdec Hroute. eexists. split; [ | split; [ reflexivity | ] ].
  - rewrite (decoded_response _ _ _ Hdec).
    apply execute_query_unrouted.
    unfold routed in *. now rewrite query_type_of_insert.
  - cbn [field]. now rewrite !lookup_insert_ne.
Qed.

Lemma unrouted_passes_through_witness :
  exists r,
    response general_world names_request = Ok r /\
    r = JObj (<["executionTime" := JStr (elapsed_ms general_world ++ "ms")]> general_decoded) /\
    field r "results" = general_decoded !! "results" /\
    field r "resultCount" = general_decoded !! "resultCount" /\
    field r "charts" = general_decoded !! "charts".
Proof.
  apply (unrouted_passes_through general_world names_request general_decoded).
  - exists general_reply. split; [ | reflexivity ].
    eexists. split; [ vm_compute; reflexivity | reflexivity ].
  - reflexivity.
Defined.

(** ** Compliance reporting *)

(** C8. For every request whose decoded query type is
    [COMPLIANCE_REPORTING], [charts] holds exactly one chart, of type
    [bar], whose three points are labelled Completed, In Progress and
    Incomplete, and whose values sum to 170, the sum of the counts of the
    compliance table the response carries as [results]. *)
Theorem compliance_chart (w : World) (query_data : json) (d : gmap string json) :
  decoded_as w query_data d ->
  d !! "queryType" = Some (JStr "COMPLIANCE_REPORTING") ->
  exists r rows c points,
    response w query_data = Ok r /\
    field r "results" = Some (JArr rows) /\
    field r "charts" = Some (JArr [c]) /\
    field c "type" = Some (JStr "bar") /\
    field c "data" = Some (JArr points) /\
    map (fun p => field p "label") points =
      [Some (JStr "Completed"); Some (JStr "In Progress"); Some (JStr "Incomplete")] /\
    total "value" points = total "count" rows /\
    total "count" rows = Some 170.
Proof.
  intros Hdec Htype.
  rewrite (decoded_response _ _ _ Hdec), execute_query_object.
  rewrite query_type_of_insert by discriminate.
  assert (Hqt : query_type_of d = JStr "COMPLIANCE_REPORTING")
    by (unfold query_type_of; now rewrite Htype).
  rewrite Hqt. cbv [eq_str].
  rewrite !bool_decide_eq_false_2 by discriminate.
  rewrite bool_decide_eq_true_2 by reflexivity.
  eexists _, _, _, _. split; [ reflexivity | ].
  cbn [field]. split; [ | split ].
  - rewrite lookup_insert_ne by discriminate.
    rewrite lookup_insert_ne by discriminate.
    rewrite lookup_insert_eq. reflexivity.
  - rewrite lookup_insert_eq. reflexivity.
  - repeat split; reflexivity.
Qed.

Lemma compliance_world_decoded :
  decoded_as compliance_world compliance_request compliance_decoded.
Proof.
  exists compliance_reply. split; [ | reflexivity ].
  eexists. split; [ vm_compute; reflexivity | reflexivity ].
Defined.

Lemma compliance_chart_witness :
  exists r rows c points,
    response compliance_world compliance_request = Ok r /\
    field r "results" = Some (JArr rows) /\
    field r "charts" = Some (JArr [c]) /\
    field c "type" = Some (JStr "bar") /\
    field c "data" = Some (JArr points) /\
    map (fun p => field p "label") points =
      [Some (JStr "Completed"); Some (JStr "In Progress"); Some (JStr "Incomplete")] /\
    total "value" points = total "count" rows /\
    total "count" rows = Some 170.
Proof.
  apply (compliance_chart compliance_world compliance_request compliance_decoded).
  - exact compliance_world_decoded.
  - reflexivity.
Defined.

(** ** The fallback for a reply that is not JSON *)

Lemma char_length_append (a b : string) :
  char_length (a ++ b) = (char_length a + char_length b)%nat.
Proof.
  induction a as [ | c a IH ]; [ reflexivity | ].
  change (char_length (String c (a ++ b)) =
          (char_length (String c a) + char_length b)%nat).
  cbn [char_length]. rewrite IH. now destruct (continuation c).
Qed.

Lemma take_chars_length (n : nat) (s : string) :
  (n <= char_length s)%nat -> char_length (take_chars n s) = n.
Proof.
  revert n. induction s as [ | c s IH ]; intros n H; cbn [char_length take_chars] in *.
  - lia.
  - destruct (continuation c) eqn:Hc.
    + cbn [char_length]. rewrite Hc. now apply IH.
    + destruct n as [ | n ]; [ reflexivity | ].
      cbn [char_length]. rewrite Hc. f_equal. apply IH. lia.
Qed.











(** ** The missing credential *)

(** C6. When the credential is absent from the environment (or empty), no
    request is sent to the chat client, whatever [query_data] is, and every
    request that carries a query is answered at once by the failure
    envelope: [success] is false, [summary] explains that the service is not
    configured, and [suggestions] holds three entries. *)
Theorem missing_credential (w : World) (query_data : json) :
  credential_missing w ->
  upstream_calls w query_data = [] /\
  forall q, field query_data "query" = Some q ->
    exists r,
      response w query_data = Ok r /\
      field r "success" = Some (JBool false) /\
      field r "summary" =
        Some (JStr "AI service not configured. Please set OPENAI_API_KEY environment variable.") /\
      field r "suggestions" =
        Some (JArr [JStr "Set up OpenAI API key to enable natural language queries";
                    JStr "Try using the manual query interface";
                    JStr "Contact administrator for assistance"]).
Proof.
  intros Hmiss. split; [ now apply unconfigured_calls | ].
  intros q Hq. destruct query_data; try discriminate. cbn [field] in Hq.
  eexists. split; [ exact (unconfigured_response w d q Hmiss Hq) | ].
  repeat split; reflexivity.
Qed.

Lemma missing_credential_witness :
  upstream_calls unconfigured_world names_request = [] /\
  forall q, field names_request "query" = Some q ->
    exists r,
      response unconfigured_world names_request = Ok r /\
      field r "success" = Some (JBool false) /\
      field r "summary" =
        Some (JStr "AI service not configured. Please set OPENAI_API_KEY environment variable.") /\
      field r "suggestions" =
        Some (JArr [JStr "Set up OpenAI API key to enable natural language queries";
                    JStr "Try using the manual query interface";
                    JStr "Contact administrator for assistance"]).
Proof.
  apply (missing_credential unconfigured_world names_request).
  left. reflexivity.
Defined.

(** ** No check of the request before the model is called *)

(** C1 fails as stated: the request [{"query": "list patient names"}] asks
    for names and gives no role; with the credential set it is sent to the
    chat client, and the response is a success. *)
Lemma names_request_reaches_the_model :
  field names_request "query" = Some (JStr "list patient names") /\
  field names_request "userRole" = None /\
  exists r req,
    response prose_world names_request = Ok r /\
    field r "success" = Some (JBool true) /\
    error_is_set r = false /\
    upstream_calls prose_world names_request = [req].
Proof.
  split; [ reflexivity | ]. split; [ reflexivity | ].
  eexists _, _. split; [ vm_compute; reflexivity | ].
  split; [ reflexivity | ]. split; [ reflexivity | ].
  vm_compute. reflexivity.
Qed.

(** C1, amended. The pipeline checks neither the text of the request nor its
    role: an absent role is read as [staff] and goes into the prompt with
    the text as it is. A request that carries a query is answered without a
    call of the language model exactly when the credential is missing, by a
    failure envelope with [success] false, [results] empty and [error] set;
    with the credential it is sent to the language model, once, whatever
    its text and role. *)
Theorem short_circuit_only_without_credential
    (w : World) (d : gmap string json) (q : json) :
  d !! "query" = Some q ->
  (credential_missing w ->
     upstream_calls w (JObj d) = [] /\
     exists r, response w (JObj d) = Ok r /\
       field r "success" = Some (JBool false) /\
       field r "results" = Some (JArr []) /\
       error_is_set r = true) /\
  (~ credential_missing w ->
     exists req, upstream_calls w (JObj d) = [req] /\
       chat_text req = user_message_text w q (default (JStr "staff") (d !! "userRole"))).
Proof.
  intros Hq. split.
  - intros Hmiss. split; [ now apply unconfigured_calls | ].
    eexists. split; [ exact (unconfigured_response w d q Hmiss Hq) | ].
    repeat split; reflexivity.
  - intros Hconf. destruct (configured_calls w d q Hconf Hq) as (key & _ & Hcalls).
    eexists. split; [ exact Hcalls | reflexivity ].
Qed.

Lemma short_circuit_only_without_credential_witness :
  (credential_missing prose_world ->
     upstream_calls prose_world (JObj names_fields) = [] /\
     exists r, response prose_world (JObj names_fields) = Ok r /\
       field r "success" = Some (JBool false) /\
       field r "results" = Some (JArr []) /\
       error_is_set r = true) /\
  (~ credential_missing prose_world ->
     exists req, upstream_calls prose_world (JObj names_fields) = [req] /\
       chat_text req =
         user_message_text prose_world (JStr "list patient names")
           (default (JStr "staff") (names_fields !! "userRole"))).
Proof.
  apply (short_circuit_only_without_credential prose_world names_fields
           (JStr "list patient names")).
  reflexivity.
Defined.

(** ** [resultCount] and [results] *)

Lemma unconfigured_response_inv (w : World) (query_data r : json) :
  credential_missing w -> response w query_data = Ok r ->
  exists q, r = create_mock_response w q "OpenAI API key not configured".
Proof.
  intros Hmiss Hr. pose proof (unconfigured_calls w query_data Hmiss) as Hnone.
  destruct (response_cases _ _ _ Hr)
    as [ (_ & q & _ & ->) | [ (t & q & (Hrep & _) & _)
       | [ (d & (t & Hrep & _) & _) | (e & q & req & Hcalls & _) ] ] ].
  - eauto.
  - destruct Hrep as (req & Hcalls & _). congruence.
  - destruct Hrep as (req & Hcalls & _). congruence.
  - congruence.
Qed.

(** On a routed type [execute_query] stores one of the five tables and its
    length. *)
Lemma execute_query_routed (d : gmap string json) (query_data : json) :
  routed d = true ->
  exists d' table,
    execute_query (JObj d) query_data = Ok (JObj d') /\
    d' !! "results" = Some table /\ In table mock_tables /\
    count_matches_results (JObj d') = true.
Proof.
  intros Hroute. rewrite execute_query_object.
  unfold routed in Hroute. cbn [existsb routed_types] in Hroute.
  unfold count_matches_results, field, mock_tables.
  repeat (destruct (eq_str (query_type_of d) _);
    [ eexists _, _; split; [ reflexivity | ]; lookup_inserted;
      split; [ reflexivity | ]; split; [ cbn; tauto | reflexivity ] | ]).
  discriminate.
Qed.

(** C2 fails as stated: for the reply
    [{"queryType": "GENERAL", "results": [{"count": 42}], "resultCount": 0, "charts": [{"type": "pie"}]}]
    the response has one element in [results] and a [resultCount] of 0. *)
Lemma count_differs_from_results :
  exists r,
    response general_world names_request = Ok r /\
    field r "results" = Some (JArr [JObj {[ "count" := JInt 42 ]}]) /\
    field r "resultCount" = Some (JInt 0) /\
    count_matches_results r = false.
Proof.
  eexists. split; [ vm_compute; reflexivity | ].
  repeat split; reflexivity.
Qed.

(** C2, amended. [resultCount] equals the length of [results] in every
    response of the config-error path, of the degraded-parse fallback, and
    of a reply decoded to an object whose query type is one of the five with
    a branch. (For another query type the two fields are those of the
    reply, and the envelope of an exception has neither.) *)
Theorem count_matches_on_synthesized_paths (w : World) (query_data r : json) :
  response w query_data = Ok r ->
  credential_missing w \/
  (exists t, degraded_parse w query_data t) \/
  (exists d, decoded_as w query_data d /\ routed d = true) ->
  count_matches_results r = true.
Proof.
  intros Hr [Hmiss | [(t & Hdeg) | (d & Hdec & Hroute)]].
  - destruct (unconfigured_response_inv _ _ _ Hmiss Hr) as (q & ->). reflexivity.
  - destruct (degraded_response _ _ _ Hdeg) as (q & _ & Hr').
    rewrite Hr' in Hr. injection Hr as <-. reflexivity.
  - rewrite (decoded_response _ _ _ Hdec) in Hr.
    destruct (execute_query_routed
                (<["executionTime" := JStr (elapsed_ms w ++ "ms")]> d) query_data)
      as (d' & table & Hexec & _ & _ & Hcount).
    + unfold routed in *. now rewrite query_type_of_insert.
    + rewrite Hexec in Hr. now injection Hr as <-.
Qed.

Lemma compliance_decoded_routed : routed compliance_decoded = true.
Proof. reflexivity. Defined.

Lemma count_matches_on_synthesized_paths_witness :
  exists r,
    response compliance_world compliance_request = Ok r /\
    count_matches_results r = true.
Proof.
  eexists. split; [ vm_compute; reflexivity | ].
  eapply (count_matches_on_synthesized_paths compliance_world compliance_request).
  - vm_compute. reflexivity.
  - right. right. exists compliance_decoded. split.
    + exact compliance_world_decoded.
    + exact compliance_decoded_routed.
Defined.

(** ** [error] and [success] *)

(** C3 fails as stated: for the reply
    [{"success": false, "queryType": "GENERAL", "summary": "Request rejected"}]
    the response has [success] false and no [error]. *)
Lemma failure_without_error :
  exists r,
    response rejected_world names_request = Ok r /\
    field r "success" = Some (JBool false) /\
    field r "error" = None /\
    success_is_false r = true /\
    error_is_set r = false.
Proof.
  eexists. split; [ vm_compute; reflexivity | ].
  repeat split; reflexivity.
Qed.

(** C3, amended. In every response of the config-error path, of the
    degraded-parse fallback and of an exception, [error] is set if and only
    if [success] is false. The response to a reply decoded to an object
    carries the [success] and the [error] of the reply, as they came. *)
Theorem error_iff_failure_outside_decoded_replies (w : World) (query_data r : json) :
  response w query_data = Ok r ->
  (exists d, decoded_as w query_data d /\
     field r "success" = d !! "success" /\ field r "error" = d !! "error") \/
  error_is_set r = success_is_false r.
Proof.
  intros Hr.
  destruct (response_cases _ _ _ Hr)
    as [ (_ & q & _ & ->) | [ (t & q & _ & ->)
       | [ (d & Hdec & Hexec) | (e & q & req & _ & ->) ] ] ];
    try (right; reflexivity).
  left. exists d. split; [ exact Hdec | ].
  destruct (execute_query_other_keys
              (<["executionTime" := JStr (elapsed_ms w ++ "ms")]> d) query_data "success")
    as (d1 & H1 & Hsuccess); [ apply (bool_decide_unpack _); vm_compute; exact I | ].
  destruct (execute_query_other_keys
              (<["executionTime" := JStr (elapsed_ms w ++ "ms")]> d) query_data "error")
    as (d2 & H2 & Herror); [ apply (bool_decide_unpack _); vm_compute; exact I | ].
  rewrite Hexec in H1, H2. injection H1 as ->. injection H2 as ->.
  cbn [field]. rewrite Hsuccess, Herror. now lookup_inserted.
Qed.

Lemma error_iff_failure_outside_decoded_replies_witness :
  exists r,
    response unconfigured_world names_request = Ok r /\
    ((exists d, decoded_as unconfigured_world names_request d /\
        field r "success" = d !! "success" /\ field r "error" = d !! "error") \/
     error_is_set r = success_is_false r).
Proof.
  eexists. split; [ vm_compute; reflexivity | ].
  apply (error_iff_failure_outside_decoded_replies unconfigured_world names_request).
  vm_compute. reflexivity.
Defined.

(** ** What [results] can hold *)

Lemma mock_tables_aggregate (table : json) :
  In table mock_tables -> aggregate_table table = true.
Proof.
  unfold mock_tables. cbn [In].
  intros [<- | [<- | [<- | [<- | [<- | []]]]]]; vm_compute; reflexivity.
Qed.

(** C4 fails as stated: a reply in prose is copied into [results] as it is,
    and with it the name, the identity number and the telephone number it
    mentions. *)
Lemma fallback_results_carry_identifiers :
  exists r rec s,
    response prose_world names_request = Ok r /\
    field r "results" = Some (JArr [rec]) /\
    field rec "response" = Some (JStr s) /\
    occurs "Thabo Mokoena" s = true /\
    occurs "8001015009087" s = true /\
    occurs "082 555 0199" s = true.
Proof.
  eexists _, _, _. split; [ vm_compute; reflexivity | ].
  split; [ reflexivity | ]. split; [ reflexivity | ].
  repeat split; vm_compute; reflexivity.
Qed.

(** C4, amended. For every reply decoded to an object whose query type is
    one of the five with a branch, [results] is one of the five canned
    tables, whatever the request and the reply say: every record of it has
    its keys among ageRange, condition, status, riskLevel, examinationType,
    count, percentage, conditions and avgTime, and none of the identifying
    fields of the schema (firstName, surname, idNumber, lastName, email).
    (On the fallback path [results] is the text of the reply, unfiltered,
    and for another query type it is what the reply gave.) *)
Theorem routed_results_are_canned_aggregates
    (w : World) (query_data : json) (d : gmap string json) :
  decoded_as w query_data d ->
  routed d = true ->
  exists r table,
    response w query_data = Ok r /\
    field r "results" = Some table /\
    In table mock_tables /\
    aggregate_table table = true.
Proof.
  intros Hdec Hroute. rewrite (decoded_response _ _ _ Hdec).
  destruct (execute_query_routed
              (<["executionTime" := JStr (elapsed_ms w ++ "ms")]> d) query_data)
    as (d' & table & Hexec & Hres & Hin & _).
  - unfold routed in *. now rewrite query_type_of_insert.
  - exists (JObj d'), table. repeat split; auto using mock_tables_aggregate.
Qed.

Lemma routed_results_are_canned_aggregates_witness :
  exists r table,
    response compliance_world compliance_request = Ok r /\
    field r "results" = Some table /\
    In table mock_tables /\
    aggregate_table table = true.
Proof.
  apply (routed_results_are_canned_aggregates compliance_world compliance_request
           compliance_decoded).
  - exact compliance_world_decoded.
  - exact compliance_decoded_routed.
Defined.

(** ** Faults *)





(** ** Further properties of the paths *)

(** X1. A [query_data] without a [query] (an object without the key, or a
    value that is not an object) gets no envelope from [process_query]: the
    handler of line 139 reads the local [query], which line 90 never bound,
    and the [UnboundLocalError] leaves the method. *)
Theorem request_without_query_raises (w : World) (query_data : json) (st : Effects) :
  field query_data "query" = None ->
  process_query w (init w) query_data st =
    (Raise (UnboundLocalError query_unbound_message), st).
Proof.
  intros Hq.
  assert (Hraise : exists e, py_getitem query_data "query" = Raise e).
  { destruct query_data; cbn in *; try rewrite Hq; eauto. }
  destruct Hraise as (e & He).
  unfold process_query, try_except, process_query_body.
  unfold bind at 1. unfold lift at 1. rewrite He. cbn [any_Exception].
  unfold process_query_handler, local_query, bind, lift. now rewrite He.
Qed.

Lemma request_without_query_raises_witness :
  process_query empty_request_world (init empty_request_world) (JObj ∅) no_effects =
    (Raise (UnboundLocalError query_unbound_message), no_effects).
Proof.
  apply (request_without_query_raises empty_request_world (JObj ∅) no_effects).
  reflexivity.
Defined.

(** X2. A reply that is JSON but not an object is not wrapped by the
    fallback: the assignment of [executionTime] raises [TypeError], and the
    response is the failure envelope, without [results]. *)
Theorem non_object_reply_fails (w : World) (query_data : json) (t : string) (v : json) :
  replied w query_data t ->
  json_loads w t = inl v ->
  (forall d, v <> JObj d) ->
  exists msg q,
    field query_data "query" = Some q /\
    response w query_data = Ok (failure_envelope w (TypeError msg) q) /\
    field (failure_envelope w (TypeError msg) q) "results" = None.
Proof.
  intros Hrep Hloads Hv.
  destruct (replied_inv _ _ _ Hrep) as (d & q & key & -> & Hq & Hkey & Hne & Hcalls & Hsend).
  pose proof (answer_response w (JObj d)) as Ha. rewrite Hcalls in Ha.
  remember (response w (JObj d)) as r eqn:Hr. clear Hr.
  remember [request_for w key d q] as sent eqn:Hs.
  remember (JObj d) as qd eqn:Hqd.
  destruct Ha as [ | | d' q' key' ? Hd Hq' Hkey' _ Hsend'
                 | d' q' key' t' ? Hd Hq' Hkey' _ Hsend' Hloads'
                 | d' q' key' t' r0 ? Hd Hq' Hkey' _ Hsend' Hloads' Hexec
                 | d' q' key' t' v' e Hd Hq' Hkey' _ Hsend' Hloads' Hset
                 | d' q' key' t' e Hd Hq' Hkey' _ Hsend' Hloads' He ];
    try discriminate; subst qd; injection Hd as <-;
    rewrite Hq in Hq'; injection Hq' as <-;
    rewrite Hkey in Hkey'; injection Hkey' as <-;
    rewrite Hsend in Hsend'; try discriminate; injection Hsend' as <-;
    rewrite Hloads in Hloads'; try discriminate; injection Hloads' as Hv'.
  - now destruct (Hv r0).
  - subst v'. destruct v; try (now destruct (Hv d0)); injection Hset as <-;
      eexists _, q; (split; [ exact Hq | ]); split; reflexivity.
Qed.

Lemma non_object_reply_fails_witness :
  exists msg q,
    field names_request "query" = Some q /\
    response list_reply_world names_request =
      Ok (failure_envelope list_reply_world (TypeError msg) q) /\
    field (failure_envelope list_reply_world (TypeError msg) q) "results" = None.
Proof.
  apply (non_object_reply_fails list_reply_world names_request "[]" (JArr [])).
  - eexists. split; [ vm_compute; reflexivity | reflexivity ].
  - reflexivity.
  - discriminate.
Defined.

(** X3. When the chat client raises, the response is the failure envelope
    of lines 140-145 with the message of the exception as [error]. *)
Theorem upstream_fault_envelope (w : World) (query_data : json) (req : ChatRequest)
    (msg : string) :
  upstream_calls w query_data = [req] ->
  send_message w req = inr msg ->
  exists q,
    field query_data "query" = Some q /\
    response w query_data = Ok (failure_envelope w (UpstreamError msg) q) /\
    field (failure_envelope w (UpstreamError msg) q) "error" = Some (JStr msg).
Proof.
  intros Hcalls Hsend.
  pose proof (answer_response w query_data) as Ha. rewrite Hcalls in Ha.
  remember (response w query_data) as r eqn:Hr. clear Hr.
  remember [req] as sent eqn:Hs.
  destruct Ha as [ | | d q key ? Hd Hq Hkey _ Hsend'
                 | d q key ? ? Hd Hq Hkey _ Hsend'
                 | d q key ? ? ? Hd Hq Hkey _ Hsend'
                 | d q key ? ? ? Hd Hq Hkey _ Hsend'
                 | d q key ? ? Hd Hq Hkey _ Hsend' ];
    try discriminate; injection Hs as Hreq; subst req query_data;
    rewrite Hsend in Hsend'; try discriminate; injection Hsend' as <-.
  exists q. split; [ exact Hq | ]. split; reflexivity.
Qed.

Lemma upstream_fault_envelope_witness :
  exists q,
    field compliance_request "query" = Some q /\
    response offline_world compliance_request =
      Ok (failure_envelope offline_world (UpstreamError "Connection error.") q) /\
    field (failure_envelope offline_world (UpstreamError "Connection error.") q) "error" =
      Some (JStr "Connection error.").
Proof.
  eapply (upstream_fault_envelope offline_world compliance_request).
  - vm_compute. reflexivity.
  - reflexivity.
Defined.

#[local] Set Warnings "-clear-no-such-hyp".

(** X4. An invocation sends at most one chat request, whatever the world
    answers (nothing is retried), and it sends one only when the credential
    is set and the request carries a query. *)
Theorem at_most_one_chat_request (w : World) (query_data : json) :
  (length (upstream_calls w query_data) <= 1)%nat /\
  (upstream_calls w query_data <> [] ->
     ~ credential_missing w /\ exists q, field query_data "query" = Some q).
Proof.
  pose proof (answer_response w query_data) as Ha.
  remember (response w query_data) as r eqn:Hr. clear Hr.
  remember (upstream_calls w query_data) as sent eqn:Hs. clear Hs.
  destruct Ha as [ | | d q key ? Hd Hq Hkey Hne | d q key ? ? Hd Hq Hkey Hne
                 | d q key ? ? ? Hd Hq Hkey Hne | d q key ? ? ? Hd Hq Hkey Hne
                 | d q key ? ? Hd Hq Hkey Hne ];
    (split; [ cbn; lia | ]); intros Hsent; try congruence;
    subst query_data; (split; [ | now exists q ]);
    intros [Hm | Hm]; rewrite Hm in Hkey; congruence.
Qed.

(** X5. [execute_query] is idempotent on objects: run on its own result,
    with any request, it returns that result unchanged. *)
Theorem execute_query_idempotent (d : gmap string json) (query_data query_data' : json) :
  exists d',
    execute_query (JObj d) query_data = Ok (JObj d') /\
    execute_query (JObj d') query_data' = Ok (JObj d').
Proof.
  rewrite execute_query_object.
  destruct (eq_str (query_type_of d) "PATIENT_SEARCH") eqn:E1;
    [ | destruct (eq_str (query_type_of d) "MEDICAL_ANALYSIS") eqn:E2;
        [ | destruct (eq_str (query_type_of d) "COMPLIANCE_REPORTING") eqn:E3;
            [ | destruct (eq_str (query_type_of d) "RISK_ASSESSMENT") eqn:E4;
                [ | destruct (eq_str (query_type_of d) "OPERATIONAL_INSIGHTS") eqn:E5 ] ] ] ];
    (eexists; split; [ reflexivity | ]);
    rewrite execute_query_object;
    rewrite ?query_type_of_insert by discriminate;
    rewrite ?E1, ?E2, ?E3, ?E4, ?E5;
    try reflexivity;
    do 2 f_equal; apply map_eq; intros k;
    rewrite !lookup_insert; repeat case_decide; reflexivity.
Qed.

(** X6. [execute_query] deletes no key of an object, and the keys it adds
    are among [results], [resultCount] and [charts]. *)
Theorem execute_query_keys (d : gmap string json) (query_data : json) :
  exists d',
    execute_query (JObj d) query_data = Ok (JObj d') /\
    dom d ⊆ dom d' /\
    dom d' ⊆ dom d ∪ list_to_set assigned_keys.
Proof.
  rewrite execute_query_object.
  repeat (destruct (eq_str (query_type_of d) _);
    [ eexists; split; [ reflexivity | ];
      rewrite !dom_insert_L; cbn; set_solver | ]).
  eexists. split; [ reflexivity | ]. set_solver.
Qed.

(** X7. [PATIENT_SEARCH] and [RISK_ASSESSMENT] have no chart of their own:
    the response to a [PATIENT_SEARCH] reply carries the table of
    [get_mock_patient_search_results] as [results], with [resultCount] 4,
    the response to a [RISK_ASSESSMENT] reply the table of
    [get_mock_risk_assessment_results], with [resultCount] 3, and each
    carries whatever [charts] the reply gave (none when it gave none). *)
Theorem charts_pass_through_without_chart_branch
    (w : World) (query_data : json) (d : gmap string json) :
  decoded_as w query_data d ->
  exists r,
    response w query_data = Ok r /\
    (d !! "queryType" = Some (JStr "PATIENT_SEARCH") ->
       field r "results" = Some get_mock_patient_search_results /\
       field r "resultCount" = Some (JInt 4) /\
       field r "charts" = d !! "charts") /\
    (d !! "queryType" = Some (JStr "RISK_ASSESSMENT") ->
       field r "results" = Some get_mock_risk_assessment_results /\
       field r "resultCount" = Some (JInt 3) /\
       field r "charts" = d !! "charts").
Proof.
  intros Hdec.
  rewrite (decoded_response _ _ _ Hdec), execute_query_object.
  rewrite query_type_of_insert by discriminate.
  eexists. split; [ reflexivity | ].
  unfold query_type_of.
  split; intros ->; cbv [default from_option id eq_str];
    rewrite ?bool_decide_eq_false_2 by discriminate;
    rewrite bool_decide_eq_true_2 by reflexivity;
    cbn [field]; lookup_inserted; repeat split; reflexivity.
Qed.

Lemma search_world_decoded :
  decoded_as search_world names_request search_decoded.
Proof.
  exists search_reply. split; [ | reflexivity ].
  eexists. split; [ vm_compute; reflexivity | reflexivity ].
Defined.

Lemma risk_world_decoded :
  decoded_as risk_world names_request risk_decoded.
Proof.
  exists risk_reply. split; [ | reflexivity ].
  eexists. split; [ vm_compute; reflexivity | reflexivity ].
Defined.

Lemma charts_pass_through_without_chart_branch_witness :
  (exists r,
     response search_world names_request = Ok r /\
     field r "results" = Some get_mock_patient_search_results /\
     field r "resultCount" = Some (JInt 4) /\
     field r "charts" = Some (JArr [JObj {[ "type" := JStr "pie" ]}])) /\
  (exists r,
     response risk_world names_request = Ok r /\
     field r "results" = Some get_mock_risk_assessment_results /\
     field r "resultCount" = Some (JInt 3) /\
     field r "charts" = None).
Proof.
  split.
  - destruct (charts_pass_through_without_chart_branch search_world names_request
                search_decoded search_world_decoded) as (r & Hr & Hsearch & _).
    exists r. split; [ exact Hr | ]. exact (Hsearch eq_refl).
  - destruct (charts_pass_through_without_chart_branch risk_world names_request
                risk_decoded risk_world_decoded) as (r & Hr & _ & Hrisk).
    exists r. split; [ exact Hr | ]. exact (Hrisk eq_refl).
Defined.

(** X8. The summary of a text of at most 200 characters has its length; the
    summary of a longer text has 203 characters. So the summary is longer
    than the text itself exactly for texts of 201 and 202 characters.
    Lengths are those of Python, in characters. *)
Theorem summary_length (t : string) :
  char_length (summary_of t) =
    (if (200 <? char_length t)%nat then 203%nat else char_length t) /\
  ((char_length t < char_length (summary_of t))%nat <->
   char_length t = 201%nat \/ char_length t = 202%nat).
Proof.
  assert (Hlen : char_length (summary_of t) =
                 if (200 <? char_length t)%nat then 203%nat else char_length t).
  { unfold summary_of. destruct (Nat.ltb_spec 200 (char_length t)); [ | reflexivity ].
    rewrite char_length_append, take_chars_length by lia. reflexivity. }
  split; [ exact Hlen | ]. rewrite Hlen.
  destruct (Nat.ltb_spec 200 (char_length t)); lia.
Qed.

Lemma append_assoc (a b c : string) : (a ++ b) ++ c = a ++ b ++ c.
Proof.
  induction a as [ | ch a IH ]; [ reflexivity | ].
  change (String ch ((a ++ b) ++ c) = String ch (a ++ b ++ c)). now f_equal.
Qed.

Lemma prefix_append (x rest : string) : String.prefix x (x ++ rest) = true.
Proof.
  induction x as [ | ch x IH ]; [ now destruct rest | ].
  change (String.prefix (String ch x) (String ch (x ++ rest)) = true).
  cbn [String.prefix]. destruct (ascii_dec ch ch); [ exact IH | contradiction ].
Qed.

Lemma occurs_unfold (needle hay : string) :
  occurs needle hay =
    String.prefix needle hay ||
    match hay with
    | EmptyString => false
    | String _ rest => occurs needle rest
    end.
Proof. destruct hay; reflexivity. Qed.

Lemma occurs_append (before x rest : string) : occurs x (before ++ x ++ rest) = true.
Proof.
  induction before as [ | ch before IH ].
  - change (occurs x (x ++ rest) = true).
    rewrite occurs_unfold, prefix_append. reflexivity.
  - change (occurs x (String ch (before ++ x ++ rest)) = true).
    rewrite occurs_unfold, IH. apply orb_true_r.
Qed.

(** X9. With the credential set, the one chat request of an invocation goes
    out under the credential of the environment, for the model gpt-4o with
    4096 tokens at most, in the session nlq_ followed by the [requestId] of
    the request ([default] when it has none); its text holds the query
    between double quotes exactly as the request gave it, and the role,
    [staff] when the request names none. *)
Theorem chat_request_contents (w : World) (d : gmap string json) (text : string) :
  ~ credential_missing w ->
  d !! "query" = Some (JStr text) ->
  exists req,
    upstream_calls w (JObj d) = [req] /\
    getenv_OPENAI_API_KEY w = Some (chat_api_key req) /\
    chat_provider req = "openai" /\ chat_model req = "gpt-4o" /\
    chat_max_tokens req = 4096 /\
    chat_session_id req = "nlq_" ++ fmt w (default (JStr "default") (d !! "requestId")) /\
    occurs (dquote ++ text ++ dquote) (chat_text req) = true /\
    occurs ("User Role: " ++ fmt w (default (JStr "staff") (d !! "userRole")))
      (chat_text req) = true.
Proof.
  intros Hconf Hq.
  destruct (configured_calls w d (JStr text) Hconf Hq) as (key & Hkey & Hcalls).
  exists (request_for w key d (JStr text)).
  split; [ exact Hcalls | ]. split; [ exact Hkey | ].
  do 4 (split; [ reflexivity | ]).
  unfold request_for, user_message_text, chat_text. cbn [fmt]. split.
  - match goal with
    | |- occurs _ (nl ++ ?a ++ dquote ++ text ++ dquote ++ ?tail) = true =>
        replace (nl ++ a ++ dquote ++ text ++ dquote ++ tail)
          with ((nl ++ a) ++ (dquote ++ text ++ dquote) ++ tail)
          by (now rewrite !append_assoc)
    end.
    apply occurs_append.
  - match goal with
    | |- occurs (?label ++ ?role)
           (nl ++ ?a ++ dquote ++ text ++ dquote ++ nl ++ ?label ++ ?role ++ ?tail) = true =>
        replace (nl ++ a ++ dquote ++ text ++ dquote ++ nl ++ label ++ role ++ tail)
          with ((nl ++ a ++ dquote ++ text ++ dquote ++ nl) ++ (label ++ role) ++ tail)
          by (now rewrite !append_assoc)
    end.
    apply occurs_append.
Qed.

Lemma chat_request_contents_witness :
  exists req,
    upstream_calls prose_world (JObj names_fields) = [req] /\
    getenv_OPENAI_API_KEY prose_world = Some (chat_api_key req) /\
    chat_provider req = "openai" /\ chat_model req = "gpt-4o" /\
    chat_max_tokens req = 4096 /\
    chat_session_id req =
      "nlq_" ++ fmt prose_world (default (JStr "default") (names_fields !! "requestId")) /\
    occurs (dquote ++ "list patient names" ++ dquote) (chat_text req) = true /\
    occurs ("User Role: " ++
            fmt prose_world (default (JStr "staff") (names_fields !! "userRole")))
      (chat_text req) = true.
Proof.
  apply (chat_request_contents prose_world names_fields "list patient names").
  - intros [H | H]; discriminate H.
  - reflexivity.
Defined.

(** X10. An invocation of [main] without a usable argument makes no chat
    request. Without an argument it prints [{"error": "No query data
    provided"}] and leaves with status 1; with an argument that is not JSON
    it prints the error envelope with the message of the decoder, and
    returns (so it does for any other exception of the decoder). *)
Theorem main_without_usable_argument (w : World) (argv : list string) (st : Effects) :
  ((length argv < 2)%nat ->
     main w argv st =
       (Exit 1,
        {| calls := calls st;
           stdout := (stdout st ++ [JObj {[ "error" := JStr "No query data provided" ]}])%list |})) /\
  (forall arg e,
     argv !! 1%nat = Some arg -> json_loads w arg = inr e ->
     main w argv st =
       (Ok tt,
        {| calls := calls st;
           stdout := (stdout st ++ [error_result e])%list |})).
Proof.
  split.
  - intros Hlen. apply Nat.ltb_lt in Hlen.
    unfold main, try_except, main_body. unfold bind at 1. now rewrite Hlen.
  - intros arg e Harg Hloads.
    assert (Hlen : (length argv <? 2)%nat = false).
    { apply Nat.ltb_ge. destruct argv as [ | a0 [ | a1 rest ] ]; try discriminate.
      cbn. lia. }
    unfold main, try_except, main_body. unfold bind at 1. rewrite Hlen.
    unfold ret at 1. unfold bind at 1. unfold lift at 1. unfold argv_1. rewrite Harg.
    unfold bind at 1. unfold lift at 1. unfold loads. rewrite Hloads.
    reflexivity.
Qed.

Lemma main_without_usable_argument_witness :
  main prose_world ["nlp_query_processor.py"] no_effects =
    (Exit 1,
     {| calls := []; stdout := [JObj {[ "error" := JStr "No query data provided" ]}] |}) /\
  main prose_world ["nlp_query_processor.py"; prose_reply] no_effects =
    (Ok tt,
     {| calls := [];
        stdout := [error_result
                     (JSONDecodeError "Expecting value: line 1 column 1 (char 0)")] |}).
Proof.
  split.
  - apply (proj1 (main_without_usable_argument prose_world
                    ["nlp_query_processor.py"] no_effects)).
    cbn. lia.
  - apply (proj2 (main_without_usable_argument prose_world
                    ["nlp_query_processor.py"; prose_reply] no_effects) prose_reply);
      reflexivity.
Defined.

(** X11. For an argument that decodes to a request carrying a query, [main]
    prints the response of [process_query], that object and nothing else,
    and the chat requests made are those of [process_query]. *)
Theorem main_prints_the_response
    (w : World) (program arg : string) (rest : list string) (query_data q : json) :
  json_loads w arg = inl query_data ->
  field query_data "query" = Some q ->
  exists r,
    response w query_data = Ok r /\
    main w (program :: arg :: rest) no_effects =
      (Ok tt, {| calls := upstream_calls w query_data; stdout := [r] |}).
Proof.
  intros Hloads Hq.
  destruct (process_query_answer w query_data no_effects) as (o & sent & Hrun & Ha).
  cbn [calls stdout no_effects app] in Hrun.
  assert (Hok : exists r, o = Ok r).
  { destruct Ha as [ e He | | | | | | ]; eauto.
    destruct query_data; try discriminate. cbn in He, Hq. rewrite Hq in He. discriminate. }
  destruct Hok as (r & ->). exists r.
  unfold response, upstream_calls. rewrite Hrun. split; [ reflexivity | ].
  unfold main, try_except, main_body. unfold bind at 1. cbn [length Nat.ltb Nat.leb].
  unfold ret at 1. unfold bind at 1. unfold lift at 1. cbn [argv_1 lookup list_lookup].
  unfold bind at 1. unfold lift at 1. unfold loads. rewrite Hloads.
  unfold bind at 1. rewrite Hrun. reflexivity.
Qed.

Lemma main_prints_the_response_witness :
  exists r,
    response compliance_world compliance_request = Ok r /\
    main compliance_world ["nlp_query_processor.py"; compliance_request_text] no_effects =
      (Ok tt, {| calls := upstream_calls compliance_world compliance_request;
                 stdout := [r] |}).
Proof.
  apply (main_prints_the_response compliance_world "nlp_query_processor.py"
           compliance_request_text [] compliance_request
           (JStr "How many questionnaires are incomplete?"));
    reflexivity.
Defined.

(** * Properties of the scripted tests *)

Module BackendTestProps.
Import BackendTest.

Lemma log_then_return (env : Env) (name : string) (b : bool) (message : string)
    (details : option (gmap string json)) (st : Run) :
  exists st',
    (run log_test env name b message details; ret b) st = (Return b, st') /\
    test_results st' =
      (test_results st ++
       [log_entry name b message (isoformat (now env (clock_reads st))) details])%list /\
    requests st' = requests st.
Proof.
  unfold log_test, bind, datetime_now, append_result, print, ret. cbn.
  destruct details as [d | ]; [ destruct (negb (size d =? 0)%nat && negb b) | ];
    eexists; repeat split; reflexivity.
Qed.

Ltac logged :=
  match goal with
  | |- context [bind (log_test ?env ?n ?b ?m ?d) (fun _ => ret ?b) ?st] =>
      let st' := fresh "st" in
      let H := fresh "H" in
      let Hres := fresh "Hres" in
      destruct (log_then_return env n b m d st) as (st' & H & Hres & _);
      rewrite H; rewrite Hres; eexists; split; [ reflexivity | reflexivity ]
  end.

Lemma test_health_check_logs (env : Env) : logs_its_verdict (test_health_check env).
Proof.
  intros st. unfold test_health_check, try_request.
  unfold bind at 1. unfold session_get, request.
  destruct (send env (length (requests st)) _) as [response | msg].
  - destruct (status_code response =? 200).
    + unfold bind at 1. unfold lift at 1.
      destruct (response_json response) as [data | [m | m]].
      * unfold bind at 1. unfold lift at 1.
        destruct (get data "uptime" (JStr "unknown")) as [uptime | [m | m]] eqn:Hu.
        -- unfold bind at 1. unfold lift at 1.
           destruct (get data "status" JNull) as [status | [m | m]] eqn:Hs.
           ++ unfold bind at 1. unfold lift at 1.
              destruct (get data "features" JNull) as [features | [m | m]] eqn:Hf.
              ** logged.
              ** destruct data; discriminate.
              ** reflexivity.
           ++ destruct data; discriminate.
           ++ reflexivity.
        -- destruct data; discriminate.
        -- reflexivity.
      * logged.
      * reflexivity.
    + logged.
  - logged.
Qed.

Lemma test_database_connection_logs (env : Env) :
  logs_its_verdict (test_database_connection env).
Proof.
  intros st. unfold test_database_connection, try_request.
  unfold bind at 1. unfold session_get, request.
  destruct (send env (length (requests st)) _) as [response | msg].
  - destruct (status_code response =? 200).
    + unfold bind at 1. unfold lift at 1.
      destruct (response_json response) as [data | [m | m]].
      * unfold bind at 1. unfold lift at 1.
        destruct (get data "status" JNull) as [status | [m | m]] eqn:Hs.
        -- destruct (eq_str status "healthy");
             unfold bind at 1; unfold lift at 1; logged.
        -- destruct data; discriminate.
        -- reflexivity.
      * logged.
      * reflexivity.
    + logged.
  - logged.
Qed.

Lemma test_patient_creation_without_auth_logs (env : Env) :
  logs_its_verdict (test_patient_creation_without_auth env).
Proof.
  intros st. unfold test_patient_creation_without_auth, try_request.
  unfold bind at 1. unfold session_post, request.
  destruct (send env (length (requests st)) _) as [response | msg].
  - destruct (status_code response =? 401).
    + unfold bind at 1. unfold lift at 1.
      destruct (response_json response) as [body | [m | m]].
      * logged.
      * logged.
      * reflexivity.
    + logged.
  - logged.
Qed.

Lemma test_patient_data_structure_logs (env : Env) :
  logs_its_verdict (test_patient_data_structure env).
Proof.
  intros st. unfold test_patient_data_structure.
  destruct (missing_from patient_data required_fields); logged.
Qed.

Lemma test_sa_id_validation_utility_logs (env : Env) :
  logs_its_verdict (test_sa_id_validation_utility env).
Proof.
  intros st. unfold test_sa_id_validation_utility.
  change (int (String.substring 0 2 TEST_SA_ID)) with (Return (A := Z) 78).
  change (int (String.substring 2 2 TEST_SA_ID)) with (Return (A := Z) 7).
  change (int (String.substring 4 2 TEST_SA_ID)) with (Return (A := Z) 21).
  unfold bind at 1. unfold lift at 1.
  unfold bind at 1. unfold lift at 1.
  unfold bind at 1. unfold lift at 1.
  unfold bind at 1. unfold datetime_now at 1.
  unfold bind at 1. unfold datetime_now at 1.
  cbv zeta.
  match goal with |- context [if ?c then _ else _] => destruct c end; logged.
Qed.

(** The loop of [test_api_endpoints_structure] logs nothing. *)
Lemma probe_all_keeps_results (env : Env) (endpoints : list (string * string))
    (previous : option Response) (st : Run) :
  test_results (probe_all env previous endpoints st).2 = test_results st.
Proof.
  revert previous st. induction endpoints as [ | [endpoint method] rest IH ];
    intros previous st; [ reflexivity | ].
  cbn [probe_all]. unfold bind at 1.
  assert (Hprobe : test_results (probe env previous endpoint method st).2 = test_results st).
  { unfold probe, try_request. unfold bind at 1.
    destruct (String.eqb method "GET"); [ | destruct (String.eqb method "POST") ];
      unfold bind, session_get, session_post, request, ret, lift;
      try (destruct (send env _ _); reflexivity).
    destruct previous; reflexivity. }
  destruct (probe env previous endpoint method st) as [[turn | f] st1]; cbn [snd] in *.
  - unfold bind at 1. specialize (IH turn.2 st1).
    destruct (probe_all env turn.2 rest st1) as [[flags | f] st2];
      unfold ret; cbn [snd] in *; congruence.
  - exact Hprobe.
Qed.

Lemma test_api_endpoints_structure_logs (env : Env) :
  logs_its_verdict (test_api_endpoints_structure env).
Proof.
  intros st. unfold test_api_endpoints_structure. unfold bind at 1.
  pose proof (probe_all_keeps_results env endpoints_to_test None st) as Hkeep.
  destruct (probe_all env None endpoints_to_test st) as [[flags | f] st1]; cbn [snd] in Hkeep.
  - rewrite <- Hkeep. destruct (forallb id flags); logged.
  - exact Hkeep.
Qed.

Lemma log_test_appends (env : Env) (name : string) (b : bool) (message : string)
    (details : option (gmap string json)) (st : Run) :
  exists st',
    log_test env name b message details st = (Return tt, st') /\
    test_results st' =
      (test_results st ++
       [log_entry name b message (isoformat (now env (clock_reads st))) details])%list.
Proof.
  unfold log_test, bind, datetime_now, append_result, print, ret. cbn.
  destruct details as [d | ]; [ destruct (negb (size d =? 0)%nat && negb b) | ];
    eexists; split; reflexivity.
Qed.

Lemma tests_log_their_verdicts (env : Env) :
  Forall (fun named => logs_its_verdict named.2) (tests env).
Proof.
  unfold tests.
  constructor; [ apply test_health_check_logs | ].
  constructor; [ apply test_database_connection_logs | ].
  constructor; [ apply test_api_endpoints_structure_logs | ].
  constructor; [ apply test_patient_data_structure_logs | ].
  constructor; [ apply test_sa_id_validation_utility_logs | ].
  constructor; [ apply test_patient_creation_without_auth_logs | ].
  constructor.
Qed.

Lemma count_successes_cons (entry : json) (entries : list json) :
  count_successes (entry :: entries) =
    ((if passed_entry entry then 1 else 0) + count_successes entries)%nat.
Proof. unfold count_successes. cbn. now destruct (passed_entry entry). Qed.

(** The loop logs one entry for each test and counts those that passed. *)
Lemma run_tests_counts (env : Env) (remaining : list (string * T bool)) :
  Forall (fun named => logs_its_verdict named.2) remaining ->
  forall passed st,
    exists entries st',
      run_tests env remaining passed st =
        (Return (passed + count_successes entries)%nat, st') /\
      test_results st' = (test_results st ++ entries)%list /\
      length entries = length remaining /\
      Forall (fun entry => exists b, verdict entry = Some b) entries.
Proof.
  induction 1 as [ | [name test] rest Htest _ IH ]; intros passed st.
  - exists [], st. cbn. rewrite Nat.add_0_r, app_nil_r. repeat split. constructor.
  - cbn [run_tests]. unfold bind at 1. unfold try_exception. unfold bind at 1.
    cbn [snd] in Htest. specialize (Htest st).
    destruct (test st) as [[b | f] st1].
    + destruct Htest as (entry & Hres & Hsuccess).
      unfold ret at 1.
      destruct (IH (if b then S passed else passed) st1)
        as (entries & st2 & Hrun & Hres2 & Hlen & Hall).
      exists (entry :: entries), st2. rewrite Hrun, Hres2, Hres.
      rewrite count_successes_cons. unfold passed_entry, verdict. rewrite Hsuccess.
      split; [ f_equal; f_equal; destruct b; lia | ].
      split; [ now rewrite <- app_assoc | ].
      split; [ cbn; now rewrite Hlen | ].
      constructor; [ | exact Hall ]. exists b. unfold verdict. now rewrite Hsuccess.
    + destruct (log_test_appends env name false
                  ("Test failed with exception: " ++ fault_str f) None st1)
        as (st1' & Hlog & Hres1).
      unfold bind at 1. rewrite Hlog. unfold ret at 1.
      destruct (IH passed st1') as (entries & st2 & Hrun & Hres2 & Hlen & Hall).
      set (entry := log_entry name false ("Test failed with exception: " ++ fault_str f)
                      (isoformat (now env (clock_reads st1))) None) in *.
      exists (entry :: entries), st2. rewrite Hrun, Hres2, Hres1, Htest.
      rewrite count_successes_cons.
      split; [ reflexivity | ].
      split; [ now rewrite <- app_assoc | ].
      split; [ cbn; now rewrite Hlen | ].
      constructor; [ | exact Hall ]. now exists false.
Qed.

Lemma count_successes_bound (entries : list json) :
  (count_successes entries <= length entries)%nat.
Proof. unfold count_successes. apply filter_length_le. Qed.

Lemma count_successes_all (entries : list json) :
  count_successes entries = length entries <->
  Forall (fun entry => verdict entry = Some true) entries.
Proof.
  induction entries as [ | entry entries IH ]; [ cbn; split; auto | ].
  rewrite count_successes_cons. pose proof (count_successes_bound entries) as Hle.
  cbn [length]. unfold passed_entry at 1.
  destruct (verdict entry) as [[ | ] | ] eqn:Hv; split; intros H.
  - constructor; [ exact Hv | ]. apply IH. lia.
  - inversion H; subst. apply IH in H3. lia.
  - lia.
  - inversion H; subst. congruence.
  - lia.
  - inversion H; subst. congruence.
Qed.

(** What a run of the six tests leaves in [test_results], and what it
    returns: whether the successes counted are six. *)
Lemma run_all_tests_entries (env : Env) (st : Run) :
  exists entries st',
    run_all_tests env st = (Return (count_successes entries =? 6)%nat, st') /\
    test_results st' = (test_results st ++ entries)%list /\
    length entries = 6%nat /\
    Forall (fun entry => exists v, verdict entry = Some v) entries.
Proof.
  unfold run_all_tests.
  unfold bind at 1. unfold print at 1.
  unfold bind at 1. unfold print at 1.
  unfold bind at 1.
  match goal with
  | |- context [run_tests env (tests env) 0 ?s] =>
      destruct (run_tests_counts env (tests env) (tests_log_their_verdicts env) 0%nat s)
        as (entries & st1 & Hrun & Hres & Hlen & Hall)
  end.
  rewrite Hrun. cbn [test_results] in Hres.
  change (length (tests env)) with 6%nat in *. cbn [Nat.add].
  unfold bind at 1. unfold print at 1.
  unfold bind at 1. unfold print at 1.
  exists entries.
  destruct (Nat.eqb_spec (count_successes entries) 6) as [Heq | Hne];
    eexists; (split; [ reflexivity | ]);
    cbn [test_results]; (split; [ exact Hres | ]); split; assumption.
Qed.

Lemma six_successes (entries : list json) :
  length entries = 6%nat ->
  (count_successes entries =? 6)%nat = true <->
  Forall (fun entry => verdict entry = Some true) entries.
Proof.
  intros Hlen. rewrite Nat.eqb_eq, <- Hlen. apply count_successes_all.
Qed.

(** X12. [run_all_tests] never raises. It logs exactly six entries, one for
    each test, each with a boolean [success] (a test that raised is logged
    as a failure), and it returns true exactly when all six entries are
    successes. *)
Theorem run_all_tests_logs_each_test (env : Env) (st : Run) :
  exists b entries st',
    run_all_tests env st = (Return b, st') /\
    test_results st' = (test_results st ++ entries)%list /\
    length entries = 6%nat /\
    Forall (fun entry => exists v, verdict entry = Some v) entries /\
    (b = true <-> Forall (fun entry => verdict entry = Some true) entries).
Proof.
  destruct (run_all_tests_entries env st) as (entries & st' & Hrun & Hres & Hlen & Hall).
  exists (count_successes entries =? 6)%nat, entries, st'.
  split; [ exact Hrun | ]. split; [ exact Hres | ]. split; [ exact Hlen | ].
  split; [ exact Hall | ]. now apply six_successes.
Qed.

Lemma run_all_tests_logs_each_test_witness :
  exists b entries st',
    run_all_tests offline_env init = (Return b, st') /\
    test_results st' = (test_results init ++ entries)%list /\
    length entries = 6%nat /\
    Forall (fun entry => exists v, verdict entry = Some v) entries /\
    (b = true <-> Forall (fun entry => verdict entry = Some true) entries).
Proof. exact (run_all_tests_logs_each_test offline_env init). Defined.

Lemma count_passed_verdicts (entries : list json) :
  Forall (fun entry => exists b, verdict entry = Some b) entries ->
  count_passed entries = Return (count_successes entries).
Proof.
  induction 1 as [ | entry entries (b & Hb) _ IH ]; [ reflexivity | ].
  cbn [count_passed]. rewrite IH, count_successes_cons.
  unfold passed_entry. rewrite Hb. unfold verdict in Hb. unfold succeeded.
  destruct entry; try discriminate. cbn [field] in Hb. cbn [py_getitem].
  destruct (d !! "success") as [[ | b' | | | | | ] | ]; try discriminate.
  injection Hb as ->. cbn [truthy]. now destruct b.
Qed.

(** On such results [get_summary] returns, and changes nothing. *)
Lemma get_summary_returns (env : Env) (st : Run) :
  Forall (fun entry => exists b, verdict entry = Some b) (test_results st) ->
  exists summary, get_summary env st = (Return summary, st).
Proof.
  intros Hall. unfold get_summary. rewrite (count_passed_verdicts _ Hall). eauto.
Qed.

(** X13. On results that all carry a boolean [success], as the entries of
    [log_test] do, [get_summary] does not raise and changes nothing:
    [total_tests] is the number of results, [passed] the number of
    successes, [failed] the rest, so that [passed + failed = total_tests];
    with no result at all the rate is the text 0% (no division is made). *)
Theorem get_summary_counts (env : Env) (st : Run) :
  Forall (fun entry => exists b, verdict entry = Some b) (test_results st) ->
  exists summary passed failed,
    get_summary env st = (Return summary, st) /\
    field summary "total_tests" = Some (JInt (Z.of_nat (length (test_results st)))) /\
    field summary "passed" = Some (JInt passed) /\
    field summary "failed" = Some (JInt failed) /\
    passed = Z.of_nat (count_successes (test_results st)) /\
    0 <= failed /\
    passed + failed = Z.of_nat (length (test_results st)) /\
    field summary "results" = Some (JArr (test_results st)) /\
    (test_results st = [] -> field summary "success_rate" = Some (JStr "0%")).
Proof.
  intros Hall. unfold get_summary. rewrite (count_passed_verdicts _ Hall).
  pose proof (count_successes_bound (test_results st)) as Hle.
  eexists _, _, _. split; [ reflexivity | ].
  do 3 (split; [ reflexivity | ]). split; [ reflexivity | ].
  split; [ lia | ]. split; [ lia | ]. split; [ reflexivity | ].
  intros ->. reflexivity.
Qed.

Lemma offline_run_verdicts :
  Forall (fun entry => exists b, verdict entry = Some b) (test_results offline_run).
Proof.
  destruct (run_all_tests_entries offline_env init)
    as (entries & st' & Hrun & Hres & _ & Hall).
  unfold offline_run. rewrite Hrun. cbn [snd]. now rewrite Hres.
Defined.

(** With no server listening two of the six tests pass, those that send no
    request, and four fail. *)
Lemma get_summary_counts_witness :
  List.map verdict (test_results offline_run) =
    [Some false; Some false; Some false; Some true; Some true; Some false] /\
  exists summary,
    get_summary offline_env offline_run = (Return summary, offline_run) /\
    field summary "total_tests" = Some (JInt 6) /\
    field summary "passed" = Some (JInt 2) /\
    field summary "failed" = Some (JInt 4) /\
    field summary "results" = Some (JArr (test_results offline_run)).
Proof.
  split; [ vm_compute; reflexivity | ].
  destruct (get_summary_counts offline_env offline_run offline_run_verdicts)
    as (summary & passed & failed & Hsum & Htotal & Hpassed & Hfailed & Hcount & _ & Hadd & Hres & _).
  assert (Hlen : length (test_results offline_run) = 6%nat) by (vm_compute; reflexivity).
  assert (Hsucc : count_successes (test_results offline_run) = 2%nat) by (vm_compute; reflexivity).
  rewrite Hlen in Htotal, Hadd. rewrite Hsucc in Hcount.
  exists summary. split; [ exact Hsum | ]. split; [ exact Htotal | ].
  split; [ now rewrite Hpassed, Hcount | ].
  split; [ rewrite Hfailed; do 2 f_equal; lia | exact Hres ].
Defined.

(** X14. When the results file can be written, [main] returns 0 or 1 after
    six results have been logged: 0 exactly when all six are successes. The
    summary it builds counts six tests. When the file cannot be written the
    fault leaves [main], whatever the tests gave. *)
Theorem main_exit_status (env : Env) :
  ((forall path v, dump env path v = None) ->
   exists code st',
     main env init = (Return code, st') /\
     length (test_results st') = 6%nat /\
     (code = 0 \/ code = 1) /\
     (code = 0 <-> Forall (fun entry => verdict entry = Some true) (test_results st'))) /\
  (forall f, (forall path v, dump env path v = Some f) ->
   exists st', main env init = (Throw f, st') /\ length (test_results st') = 6%nat).
Proof.
  assert (Hrun : exists b st1 summary,
            (do success <- run_all_tests env; do summary <- get_summary env;
             ret (success, summary))
              {| test_results := []; printed :=
                   ["SurgiScan Backend API Testing";
                    "Testing against: " ++ BASE_URL;
                    "Test SA ID: " ++ TEST_SA_ID ++ " (Expected Age: 46 years)";
                    EmptyString];
                 requests := []; clock_reads := 0 |}
              = (Return (b, summary), st1) /\
            length (test_results st1) = 6%nat /\
            (b = true <-> Forall (fun entry => verdict entry = Some true) (test_results st1))).
  { match goal with
    | |- context [bind (run_all_tests env) _ ?s] =>
        destruct (run_all_tests_entries env s)
          as (entries & st1 & Hrun & Hres & Hlen & Hall)
    end.
    cbn [test_results app] in Hres.
    assert (Hall' : Forall (fun entry => exists v, verdict entry = Some v) (test_results st1))
      by now rewrite Hres.
    destruct (get_summary_returns env st1 Hall') as (summary & Hsum).
    exists (count_successes entries =? 6)%nat, st1, summary. unfold bind at 1. rewrite Hrun.
    unfold bind at 1. rewrite Hsum. split; [ reflexivity | ].
    rewrite Hres. split; [ exact Hlen | now apply six_successes ]. }
  destruct Hrun as (b & st1 & summary & Hrun & Hlen & Hiff).
  assert (Hmain : forall o,
            dump env "/app/backend_test_results.json" summary = o ->
            exists st',
              main env init =
                (match o with
                 | None => Return (if b then 0 else 1)
                 | Some f => Throw f
                 end, st') /\
              test_results st' = test_results st1).
  { intros o Ho. unfold main.
    unfold bind at 1. unfold print at 1.
    unfold bind at 1. unfold print at 1.
    unfold bind at 1. unfold print at 1.
    unfold bind at 1. unfold print at 1.
    cbn [init test_results printed requests clock_reads app].
    unfold bind at 1 in Hrun. unfold bind at 1.
    destruct (run_all_tests env _) as [[b' | f] st2]; [ | discriminate ].
    unfold bind at 1 in Hrun. unfold bind at 1.
    destruct (get_summary env st2) as [[summary' | f] st3]; [ | discriminate ].
    unfold ret in Hrun. injection Hrun as -> -> ->.
    unfold bind, print, lift, ret. cbn. rewrite Ho.
    destruct o; eexists; split; reflexivity. }
  split.
  - intros Hdump. destruct (Hmain None (Hdump _ _)) as (st' & Hrunmain & Hres).
    exists (if b then 0 else 1), st'. split; [ exact Hrunmain | ].
    rewrite Hres. split; [ exact Hlen | ].
    split; [ destruct b; auto | ].
    rewrite <- Hiff. destruct b; split; intros; congruence.
  - intros f Hdump. destruct (Hmain (Some f) (Hdump _ _)) as (st' & Hrunmain & Hres).
    exists st'. split; [ exact Hrunmain | ]. now rewrite Hres.
Qed.

Lemma main_exit_status_witness :
  exists code st',
    main healthy_env init = (Return code, st') /\
    length (test_results st') = 6%nat /\
    (code = 0 \/ code = 1) /\
    (code = 0 <-> Forall (fun entry => verdict entry = Some true) (test_results st')).
Proof.
  apply (proj1 (main_exit_status healthy_env)). reflexivity.
Defined.

(** X15. The identity-number test depends on the day it is run. When its two
    readings of the clock fall in the same year, it passes exactly when the
    last two digits of the year are 24 and the day is the 21st of July or
    later, or they are 25 and the day is before the 21st of July; on any
    other day it logs a failure. It never raises. *)
Theorem sa_id_test_window (env : Env) (st : Run) :
  let reading := now env (clock_reads st) in
  let today := now env (S (clock_reads st)) in
  year reading = year today ->
  exists b st',
    test_sa_id_validation_utility env st = (Return b, st') /\
    (b = true <->
     (year today mod 100 = 24 /\ before_birthday today = false) \/
     (year today mod 100 = 25 /\ before_birthday today = true)).
Proof.
  intros reading today Hyear.
  unfold test_sa_id_validation_utility.
  change (int (String.substring 0 2 TEST_SA_ID)) with (Return (A := Z) 78).
  change (int (String.substring 2 2 TEST_SA_ID)) with (Return (A := Z) 7).
  change (int (String.substring 4 2 TEST_SA_ID)) with (Return (A := Z) 21).
  unfold bind at 1. unfold lift at 1.
  unfold bind at 1. unfold lift at 1.
  unfold bind at 1. unfold lift at 1.
  unfold bind at 1. unfold datetime_now at 1.
  unfold bind at 1. unfold datetime_now at 1.
  cbv zeta. cbn [clock_reads].
  fold reading. fold today.
  assert (Hage : (age_on today (full_year_of (year reading) 78) 7 21 =? 46) = true <->
                 (year today mod 100 = 24 /\ before_birthday today = false) \/
                 (year today mod 100 = 25 /\ before_birthday today = true)).
  { unfold age_on, full_year_of, before_birthday. rewrite Hyear.
    change (50 <=? 78) with true. cbv iota.
    pose proof (Z.div_mod (year today) 100 ltac:(lia)) as Hdm.
    rewrite Z.eqb_eq.
    destruct ((month today <? 7) || (month today =? 7) && (day today <? 21)); split.
    - intros H. right. split; [ lia | reflexivity ].
    - intros [[_ H] | [H _]]; [ discriminate | lia ].
    - intros H. left. split; [ lia | reflexivity ].
    - intros [[H _] | [_ H]]; [ lia | discriminate ]. }
  destruct (age_on today (full_year_of (year reading) 78) 7 21 =? 46) eqn:Hpass.
  - match goal with
    | |- context [bind (log_test ?e ?n true ?m ?d) (fun _ => ret true) ?s] =>
        destruct (log_then_return e n true m d s) as (st' & Hlog & _)
    end.
    exists true, st'. split; [ exact Hlog | ]. split; [ intros _; now apply Hage | auto ].
  - match goal with
    | |- context [bind (log_test ?e ?n false ?m ?d) (fun _ => ret false) ?s] =>
        destruct (log_then_return e n false m d s) as (st' & Hlog & _)
    end.
    exists false, st'. split; [ exact Hlog | ].
    split; [ discriminate | ]. intros H. apply Hage in H. discriminate.
Qed.

Lemma sa_id_test_window_witness :
  exists b st',
    test_sa_id_validation_utility healthy_env init = (Return b, st') /\
    (b = true <->
     (year (now healthy_env 1) mod 100 = 24 /\ before_birthday (now healthy_env 1) = false) \/
     (year (now healthy_env 1) mod 100 = 25 /\ before_birthday (now healthy_env 1) = true)).
Proof.
  apply (sa_id_test_window healthy_env init). reflexivity.
Defined.

(** X16. [test_api_endpoints_structure] never raises and always sends its
    three requests, a POST to /patients/create and a GET to /patients and to
    /health: a refused request counts as a failure of that endpoint and the
    loop goes on. The test passes exactly when each of the three is answered
    with status 200, 401 or 400. *)
Theorem endpoints_pass_iff_all_acceptable (env : Env) (st : Run) :
  let n := length (requests st) in
  let create := {| http_method := "POST"; http_url := BASE_URL ++ "/patients/create";
                   http_json := Some (JObj ∅); http_timeout := 5 |} in
  let patients := {| http_method := "GET"; http_url := BASE_URL ++ "/patients";
                     http_json := None; http_timeout := 5 |} in
  let health := {| http_method := "GET"; http_url := BASE_URL ++ "/health";
                   http_json := None; http_timeout := 5 |} in
  exists st',
    test_api_endpoints_structure env st =
      (Return (acceptable (send env n create) &&
               acceptable (send env (S n) patients) &&
               acceptable (send env (S (S n)) health)), st') /\
    requests st' = (requests st ++ [create; patients; health])%list.
Proof.
  intros n create patients health.
  unfold test_api_endpoints_structure. unfold bind at 1.
  assert (Hloop : exists st1,
            probe_all env None endpoints_to_test st =
              (Return [acceptable (send env n create);
                       acceptable (send env (S n) patients);
                       acceptable (send env (S (S n)) health)], st1) /\
            requests st1 = (requests st ++ [create; patients; health])%list).
  { unfold endpoints_to_test. cbn [probe_all fst snd].
    unfold probe, try_request, bind, session_get, session_post, request, ret, lift.
    cbn [String.eqb Ascii.eqb Bool.eqb requests].
    fold n. fold create.
    destruct (send env n create) as [r1 | m1]; cbn [acceptable requests fst snd];
      (replace (length (requests st ++ [create])) with (S n)
         by (rewrite length_app; cbn; unfold n; lia));
      fold patients;
      destruct (send env (S n) patients) as [r2 | m2]; cbn [acceptable requests fst snd];
      (replace (length ((requests st ++ [create]) ++ [patients])) with (S (S n))
         by (rewrite !length_app; cbn; unfold n; lia));
      fold health;
      destruct (send env (S (S n)) health) as [r3 | m3]; cbn [acceptable requests fst snd];
      eexists; (split; [ reflexivity | ]); cbn [requests];
      now rewrite <- !app_assoc. }
  destruct Hloop as (st1 & -> & Hreq). cbn [forallb id].
  rewrite andb_true_r, andb_assoc.
  destruct (acceptable (send env n create) && acceptable (send env (S n) patients)
            && acceptable (send env (S (S n)) health));
    match goal with
    | |- context [bind (log_test ?e ?nm ?b ?m ?d) (fun _ => ret ?b) ?s] =>
        destruct (log_then_return e nm b m d s) as (st' & Hlog & _ & Hreq')
    end;
    exists st'; (split; [ exact Hlog | ]); now rewrite Hreq'.
Qed.

Ltac after_log :=
  match goal with
  | |- context [bind (log_test ?e ?n ?b ?m ?d) (fun _ => ret ?b) ?s] =>
      let st' := fresh "st" in
      let H := fresh "H" in
      destruct (log_then_return e n b m d s) as (st' & H & _);
      rewrite H; clear H; cbn [fst]
  end.

Ltac eval_get :=
  repeat match goal with
         | |- context [get ?v ?k ?d] =>
             let r := eval cbv [get py_get type_name exn_str] in (get v k d) in
             change (get v k d) with r
         end;
  cbv beta iota.

(** X17. What the two tests of /health check. [test_health_check] passes
    exactly when the request is answered with status 200 and a body that
    decodes to an object; [test_database_connection] asks in addition that
    the [status] of that object be the text healthy. *)
Theorem health_tests_pass_conditions (env : Env) (st : Run) :
  let answer :=
    send env (length (requests st))
      {| http_method := "GET"; http_url := BASE_URL ++ "/health";
         http_json := None; http_timeout := 10 |} in
  ((test_health_check env st).1 = Return true <->
   exists response d,
     answer = inl response /\ status_code response = 200 /\
     json_body response = inl (JObj d)) /\
  ((test_database_connection env st).1 = Return true <->
   exists response d,
     answer = inl response /\ status_code response = 200 /\
     json_body response = inl (JObj d) /\ d !! "status" = Some (JStr "healthy")).
Proof.
  intros answer. split.
  - unfold test_health_check, try_request.
    unfold bind at 1. unfold session_get, request. fold answer.
    destruct answer as [response | msg].
    + destruct (Z.eqb_spec (status_code response) 200) as [Hcode | Hcode].
      * unfold bind at 1. unfold lift at 1. unfold response_json.
        destruct (json_body response) as [data | [m | m]] eqn:Hbody.
        -- unfold bind at 1. unfold lift at 1.
           destruct data as [ | ? | ? | ? | ? | ? | d ]; eval_get.
           1-6: (cbn [fst]; split;
                 [ discriminate
                 | intros (r & d' & [= <-] & _ & Hd); rewrite Hbody in Hd; discriminate ]).
           unfold bind at 1. unfold lift at 1.
           unfold bind at 1. unfold lift at 1.
           after_log. split; [ intros _; eauto | reflexivity ].
        -- after_log. split; [ discriminate | ].
           intros (r & d' & [= <-] & _ & Hd). rewrite Hbody in Hd. discriminate.
        -- cbn [fst]. split; [ discriminate | ].
           intros (r & d' & [= <-] & _ & Hd). rewrite Hbody in Hd. discriminate.
      * after_log. split; [ discriminate | ].
        intros (r & d' & [= <-] & Hc & _). contradiction.
    + after_log. split; [ discriminate | ]. intros (r & d' & Hans & _). discriminate.
  - unfold test_database_connection, try_request.
    unfold bind at 1. unfold session_get, request. fold answer.
    destruct answer as [response | msg].
    + destruct (Z.eqb_spec (status_code response) 200) as [Hcode | Hcode].
      * unfold bind at 1. unfold lift at 1. unfold response_json.
        destruct (json_body response) as [data | [m | m]] eqn:Hbody.
        -- unfold bind at 1. unfold lift at 1.
           destruct data as [ | ? | ? | ? | ? | ? | d ]; eval_get.
           1-6: (cbn [fst]; split;
                 [ discriminate
                 | intros (r & d' & [= <-] & _ & Hd & _); rewrite Hbody in Hd; discriminate ]).
           destruct (eq_str (default JNull (d !! "status")) "healthy") eqn:Hstatus;
             unfold bind at 1; unfold lift at 1; after_log.
           ++ split; [ intros _ | reflexivity ].
              exists response, d. repeat split; auto.
              destruct (d !! "status") as [[ | | | | status | | ] | ]; try discriminate.
              cbn in Hstatus. apply bool_decide_eq_true in Hstatus. now subst.
           ++ split; [ discriminate | ].
              intros (r & d' & [= <-] & _ & Hd & Hhealthy).
              rewrite Hbody in Hd. injection Hd as <-.
              rewrite Hhealthy in Hstatus. discriminate.
        -- after_log. split; [ discriminate | ].
           intros (r & d' & [= <-] & _ & Hd & _). rewrite Hbody in Hd. discriminate.
        -- cbn [fst]. split; [ discriminate | ].
           intros (r & d' & [= <-] & _ & Hd & _). rewrite Hbody in Hd. discriminate.
      * after_log. split; [ discriminate | ].
        intros (r & d' & [= <-] & Hc & _). contradiction.
    + after_log. split; [ discriminate | ]. intros (r & d' & Hans & _). discriminate.
Qed.

(** X18. [test_patient_creation_without_auth] passes exactly when the POST
    of the sample patient to /patients/create is answered with status 401
    and a body that decodes as JSON: a 401 whose body is not JSON does not
    pass. *)
Theorem creation_test_pass_condition (env : Env) (st : Run) :
  let answer :=
    send env (length (requests st))
      {| http_method := "POST"; http_url := BASE_URL ++ "/patients/create";
         http_json := Some (JObj patient_data); http_timeout := 10 |} in
  (test_patient_creation_without_auth env st).1 = Return true <->
  exists response body,
    answer = inl response /\ status_code response = 401 /\
    json_body response = inl body.
Proof.
  intros answer.
  unfold test_patient_creation_without_auth, try_request.
  unfold bind at 1. unfold session_post, request. fold answer.
  destruct answer as [response | msg].
  - destruct (Z.eqb_spec (status_code response) 401) as [Hcode | Hcode].
    + unfold bind at 1. unfold lift at 1. unfold response_json.
      destruct (json_body response) as [body | [m | m]] eqn:Hbody.
      * after_log. split; [ intros _; eauto | reflexivity ].
      * after_log. split; [ discriminate | ].
        intros (r & b & [= <-] & _ & Hb). rewrite Hbody in Hb. discriminate.
      * cbn [fst]. split; [ discriminate | ].
        intros (r & b & [= <-] & _ & Hb). rewrite Hbody in Hb. discriminate.
    + after_log. split; [ discriminate | ].
      intros (r & b & [= <-] & Hc & _). contradiction.
  - after_log. split; [ discriminate | ]. intros (r & b & Hans & _). discriminate.
Qed.

End BackendTestProps.

(** * More on the decoded path *)

(** X19. Whatever [executionTime] a decoded reply claims, the response
    carries the time measured around the call, followed by ms; and it
    carries the [queryType] of the reply as it came. *)
Theorem decoded_execution_time (w : World) (query_data : json) (d : gmap string json) :
  decoded_as w query_data d ->
  exists r,
    response w query_data = Ok r /\
    field r "executionTime" = Some (JStr (elapsed_ms w ++ "ms")) /\
    field r "queryType" = d !! "queryType".
Proof.
  intros Hdec. rewrite (decoded_response _ _ _ Hdec).
  destruct (execute_query_other_keys
              (<["executionTime" := JStr (elapsed_ms w ++ "ms")]> d) query_data "executionTime")
    as (d1 & H1 & Htime); [ apply (bool_decide_unpack _); vm_compute; exact I | ].
  destruct (execute_query_other_keys
              (<["executionTime" := JStr (elapsed_ms w ++ "ms")]> d) query_data "queryType")
    as (d2 & H2 & Htype); [ apply (bool_decide_unpack _); vm_compute; exact I | ].
  rewrite H1 in H2. injection H2 as <-.
  exists (JObj d1). split; [ exact H1 | ]. cbn [field].
  rewrite Htime, Htype. now lookup_inserted.
Qed.

Lemma decoded_execution_time_witness :
  exists r,
    response compliance_world compliance_request = Ok r /\
    field r "executionTime" = Some (JStr (elapsed_ms compliance_world ++ "ms")) /\
    field r "queryType" = compliance_decoded !! "queryType".
Proof.
  apply (decoded_execution_time compliance_world compliance_request compliance_decoded).
  exact compliance_world_decoded.
Defined.
